(** * chatbot-backend: the rank-sheet relay, embedded and verified

    The repository holds two near-duplicate Express servers:
    - [src/unnamed/part_000], the later one (CORS, [/health], input
      validation, bounded polling, sanitised errors): module [Server];
    - [src/index.js], the earlier one: module [Index].
    Both share the CSV parsing stage of [getRankData], embedded once in
    module [Csv].  JavaScript strings are sequences of UTF-16 code units;
    the string methods the code calls are embedded in module [JsString]. *)

From Stdlib Require Import String Ascii DecimalString List NArith ZArith Bool Lia PrimFloat.
Import ListNotations.
Local Open Scope list_scope.

(** ** JavaScript strings *)

Module JsString.

(** A string is its list of UTF-16 code units. *)
Definition jsstring := list N.

(** A literal of the source, written as a Rocq string (ASCII only). *)
Definition js (s : string) : jsstring :=
  map N_of_ascii (list_ascii_of_string s).

Definition QUOTE : N := 34.
Definition COMMA : N := 44.
Definition LF : N := 10.
Definition CR : N := 13.

(** WhiteSpace and LineTerminator code points, the ones [trim] strips. *)
Definition isWhiteSpace (c : N) : bool :=
  ((9 <=? c) && (c <=? 13) || (c =? 32) || (c =? 160) || (c =? 5760)
   || (8192 <=? c) && (c <=? 8202) || (c =? 8232) || (c =? 8233)
   || (c =? 8239) || (c =? 8287) || (c =? 12288) || (c =? 65279))%N.

Fixpoint trimStart (s : jsstring) : jsstring :=
  match s with
  | c :: r => if isWhiteSpace c then trimStart r else s
  | [] => []
  end.

Definition trimEnd (s : jsstring) : jsstring := rev (trimStart (rev s)).

(** [s.trim()] *)
Definition trim (s : jsstring) : jsstring := trimEnd (trimStart s).

(** Puts [c] in front of the first piece of a split. *)
Definition push_front (c : N) (pieces : list jsstring) : list jsstring :=
  match pieces with
  | p :: ps => (c :: p) :: ps
  | [] => [[c]]
  end.

(** [s.split(sep)] for a one-unit separator: never empty, the empty string
    gives one empty piece. *)
Fixpoint split_on (sep : N) (s : jsstring) : list jsstring :=
  match s with
  | [] => [[]]
  | c :: r => if (c =? sep)%N then [] :: split_on sep r
              else push_front c (split_on sep r)
  end.

Definition starts_with_LF (s : jsstring) : bool :=
  match s with
  | c :: _ => (c =? LF)%N
  | [] => false
  end.

(** [s.split(/\r?\n/)]: a line feed ends a piece, and so does a carriage
    return directly followed by one (the CR is dropped, the LF after it ends
    the piece); a lone CR stays in its piece. *)
Fixpoint split_lines (s : jsstring) : list jsstring :=
  match s with
  | [] => [[]]
  | c :: r =>
      if (c =? LF)%N then [] :: split_lines r
      else if (c =? CR)%N && starts_with_LF r then split_lines r
      else push_front c (split_lines r)
  end.

Definition strip_leading_quote (s : jsstring) : jsstring :=
  match s with
  | c :: r => if (c =? QUOTE)%N then r else s
  | [] => []
  end.

Definition strip_trailing_quote (s : jsstring) : jsstring :=
  rev (strip_leading_quote (rev s)).

(** [s.replace(/^"|"$/g, '')]: without the [m] flag [^] and [$] are the two
    ends of the string; the global scan deletes a quote at index 0, then a
    quote at the last index when that is another unit. *)
Definition replace_outer_quotes (s : jsstring) : jsstring :=
  strip_trailing_quote (strip_leading_quote s).

(** Canonicalisation of an [i]-flag regular expression without the [u] flag,
    as far as it can reach an ASCII letter: only the two ASCII cases of a
    letter canonicalise to it. *)
Definition upcase (c : N) : N :=
  if ((97 <=? c) && (c <=? 122))%N then (c - 32)%N else c.

Fixpoint prefix_ci (pat s : jsstring) : bool :=
  match pat, s with
  | [], _ => true
  | p :: pat', c :: s' => (upcase p =? upcase c)%N && prefix_ci pat' s'
  | _ :: _, [] => false
  end.

(** [/pat/i.test(s)] for a pattern of ASCII letters: some position of [s]
    starts a case-insensitive copy of [pat]. *)
Fixpoint test_ci (pat s : jsstring) : bool :=
  prefix_ci pat s ||
  match s with
  | _ :: r => test_ci pat r
  | [] => false
  end.

(** [arr.findIndex(p)]: the first index whose element passes, else -1. *)
Fixpoint findIndex {A : Type} (p : A -> bool) (l : list A) : Z :=
  match l with
  | [] => (-1)%Z
  | x :: r => if p x then 0%Z
              else let i := findIndex p r in
                   if (i <? 0)%Z then (-1)%Z else (i + 1)%Z
  end.

(** [arr[i]]: [None] stands for [undefined]. *)
Definition index {A : Type} (l : list A) (i : Z) : option A :=
  if (i <? 0)%Z then None else nth_error l (Z.to_nat i).

(** [x || d] on a string or [undefined]: the empty string is falsy too. *)
Definition or_else (x : option jsstring) (d : jsstring) : jsstring :=
  match x with
  | Some (c :: r) => c :: r
  | Some [] => d
  | None => d
  end.

End JsString.
Import JsString.

(** ** Values, errors and outcomes *)

(** The JavaScript values the handlers meet: what [JSON.parse] builds, and
    [undefined] for an absent property. *)
#[warnings="-register-all"]
Inductive value : Type :=
| VUndefined
| VNull
| VBool (b : bool)
| VNumber (x : float)
| VString (s : jsstring)
| VArray (items : list value)
| VObject (props : list (jsstring * value)).

(** ToBoolean. *)
Definition truthy (v : value) : bool :=
  match v with
  | VUndefined | VNull => false
  | VBool b => b
  | VNumber x => negb (PrimFloat.eqb x 0 || negb (PrimFloat.eqb x x))
  | VString s => match s with [] => false | _ :: _ => true end
  | VArray _ | VObject _ => true
  end.

(** [typeof v === 'string'] *)
Definition is_string (v : value) : bool :=
  match v with
  | VString _ => true
  | _ => false
  end.

Definition jsstring_eqb (a b : jsstring) : bool :=
  if list_eq_dec N.eq_dec a b then true else false.

Fixpoint lookup (k : jsstring) (props : list (jsstring * value)) : value :=
  match props with
  | [] => VUndefined
  | (k', v) :: r => if jsstring_eqb k k' then v else lookup k r
  end.

(** A thrown value.  [message] is [err.message]; [api_message] is
    [err.response?.data?.error?.message], [VUndefined] on errors that carry
    no HTTP response. *)
Record error : Type := mkError {
  message : jsstring;
  api_message : value
}.

(** [new Error(msg)] *)
Definition Error (msg : jsstring) : error :=
  {| message := msg; api_message := VUndefined |}.

(** A TypeError raised by the engine; its wording is the engine's. *)
Definition TypeError (msg : string) : error := Error (js msg).

(** How a computation ends: a value, a thrown error, or an exhausted
    iteration budget (the last only for the unbounded loop of [Index]). *)
Inductive outcome (A : Type) : Type :=
| Ret (a : A)
| Throw (e : error)
| OutOfFuel.
Arguments Ret {A} a.
Arguments Throw {A} e.
Arguments OutOfFuel {A}.

(** [const { p } = v]: throws on [undefined] and [null], reads the own
    property of an object, and finds nothing on other values. *)
Definition destructure (p : jsstring) (v : value) : outcome value :=
  match v with
  | VUndefined | VNull =>
      Throw (TypeError "Cannot destructure property of undefined or null")
  | VObject props => Ret (lookup p props)
  | _ => Ret VUndefined
  end.

(** ** The CSV parsing stage of [getRankData] (both files, same text) *)

Module Csv.

Record RankRow : Type := mkRow {
  Rank : jsstring;
  Company : jsstring
}.

(** [c => c.replace(/^"|"$/g, '').trim()] *)
Definition clean (c : jsstring) : jsstring := trim (replace_outer_quotes c).

(** [l => l.trim()] as a filter predicate. *)
Definition nonblank (l : jsstring) : bool :=
  match trim l with
  | [] => false
  | _ :: _ => true
  end.

(** [h => /rank/i.test(h)] and [h => /company/i.test(h)] *)
Definition rank_like (h : jsstring) : bool := test_ci (js "rank") h.
Definition company_like (h : jsstring) : bool := test_ci (js "company") h.

(** [csv.split(/\r?\n/)]: only a string has the method. *)
Definition split_lines_of (csv : value) : outcome (list jsstring) :=
  match csv with
  | VString s => Ret (split_lines s)
  | _ => Throw (TypeError "csv.split is not a function")
  end.

(** [lines.shift()]: the removed head ([undefined] on an empty array) and
    the array as it is left. *)
Definition shift {A : Type} (l : list A) : option A * list A :=
  match l with
  | x :: r => (Some x, r)
  | [] => (None, [])
  end.

(** [x.split(',')] on the result of [shift]. *)
Definition split_comma_of (x : option jsstring) : outcome (list jsstring) :=
  match x with
  | Some s => Ret (split_on COMMA s)
  | None => Throw (TypeError "Cannot read properties of undefined (reading 'split')")
  end.

(** [line.split(',').map(c => c.replace(/^"|"$/g, '').trim())] *)
Definition fields (line : jsstring) : list jsstring :=
  map clean (split_on COMMA line).

(** [csv.split(/\r?\n/).filter(l => l.trim())] of a string body. *)
Definition nonblank_lines (body : jsstring) : list jsstring :=
  filter nonblank (split_lines body).

Definition row_of (rankIdx companyIdx : Z) (line : jsstring) : RankRow :=
  let cols := fields line in
  {| Rank := or_else (index cols rankIdx) [];
     Company := or_else (index cols companyIdx) [] |}.

(** From [const lines = ...] to [return rows]. *)
Definition parse (csv : value) : outcome (list RankRow) :=
  match split_lines_of csv with
  | Ret all =>
      let lines := filter nonblank all in
      if (length lines =? 0)%nat then Ret []
      else
        let (first, lines) := shift lines in
        match split_comma_of first with
        | Ret hs =>
            let headers := map clean hs in
            let rankIdx := findIndex rank_like headers in
            let companyIdx := findIndex company_like headers in
            Ret (map (row_of rankIdx companyIdx) lines)
        | Throw e => Throw e
        | OutOfFuel => OutOfFuel
        end
  | Throw e => Throw e
  | OutOfFuel => OutOfFuel
  end.

End Csv.

Import Csv.

(** ** Effects: the outside world and the trace of calls *)

(** One argument of a [console.log] or [console.error] call. *)
Inductive logged : Type :=
| LStr (s : jsstring)
| LVal (v : value)
| LErr (e : error).

(** What a handler does to the outside, in the order it does it.
    [MessagesCreate] keeps the two values the message text is built from:
    the text is the template
    [Here is the current rank data:\n${JSON.stringify(rankData, null, 2)}\n\nQuery: ${query}]. *)
Inductive event : Type :=
| AxiosGet (url : jsstring) (timeout : option N)
| ThreadsCreate
| MessagesCreate (thread : jsstring) (rankData : list RankRow) (query : value)
| RunsCreate (thread assistant_id : jsstring)
| RunsRetrieve (thread run : jsstring)
| Sleep (ms : N)
| MessagesList (thread : jsstring)
| ConsoleLog (args : list logged)
| ConsoleError (args : list logged).

(** How an awaited promise settles. *)
Inductive reply (A : Type) : Type :=
| Resolve (a : A)
| Reject (e : error).
Arguments Resolve {A} a.
Arguments Reject {A} e.

(** One block of an assistant message's [content] array. *)
Inductive content_block : Type :=
| TextContent (text_value : jsstring)
| ImageContent.

Record thread_message : Type := mkMessage {
  content : list content_block
}.

(** Everything outside the process: the environment, the clock, the sheet
    export and the assistant service.  [runs_retrieve k] is the status that
    the call number [k] (from 0) of [runs.retrieve] reports. *)
Record World : Type := mkWorld {
  SHEET_ID : option jsstring;
  clock : jsstring;
  axios_get : jsstring -> reply value;
  threads_create : reply jsstring;
  messages_create : jsstring -> reply unit;
  runs_create : jsstring -> reply jsstring;
  runs_retrieve : nat -> reply jsstring;
  messages_list : jsstring -> reply (list thread_message)
}.

Definition trace := list event.

(** Computations that log their calls and may throw. *)
Definition M (A : Type) : Type := trace -> outcome A * trace.

Definition ret {A : Type} (a : A) : M A := fun t => (Ret a, t).

Definition bind {A B : Type} (m : M A) (f : A -> M B) : M B :=
  fun t =>
    match m t with
    | (Ret a, t') => f a t'
    | (Throw e, t') => (Throw e, t')
    | (OutOfFuel, t') => (OutOfFuel, t')
    end.

Definition throw {A : Type} (e : error) : M A := fun t => (Throw e, t).

Definition out_of_fuel {A : Type} : M A := fun t => (OutOfFuel, t).

Definition emit (ev : event) : M unit := fun t => (Ret tt, t ++ [ev]).

(** [try { m } catch (e) { h e }] *)
Definition try_catch {A : Type} (m : M A) (h : error -> M A) : M A :=
  fun t =>
    match m t with
    | (Throw e, t') => h e t'
    | r => r
    end.

Definition lift {A : Type} (o : outcome A) : M A := fun t => (o, t).

Definition settle {A : Type} (r : reply A) : M A :=
  match r with
  | Resolve a => ret a
  | Reject e => throw e
  end.

Declare Scope js_scope.
Delimit Scope js_scope with js.
Notation "x <- m ;; k" := (bind m (fun x => k))
  (at level 61, m at next level, right associativity) : js_scope.
Notation "m ;; k" := (bind m (fun _ => k))
  (at level 61, right associativity) : js_scope.
Local Open Scope js_scope.

(** [while (cond(s)) s = body(s)] with an iteration budget. *)
Fixpoint while_ {S : Type} (fuel : nat) (cond : S -> bool) (body : S -> M S)
    (s : S) : M S :=
  if cond s then
    match fuel with
    | O => out_of_fuel
    | Datatypes.S fuel' => s' <- body s ;; while_ fuel' cond body s'
    end
  else ret s.

Definition is_retrieve (ev : event) : bool :=
  match ev with
  | RunsRetrieve _ _ => true
  | _ => false
  end.

Definition is_sleep (ev : event) : bool :=
  match ev with
  | Sleep _ => true
  | _ => false
  end.

(** A call that leaves the process: the sheet export or the assistant API. *)
Definition is_network (ev : event) : bool :=
  match ev with
  | AxiosGet _ _ | ThreadsCreate | MessagesCreate _ _ _ | RunsCreate _ _
  | RunsRetrieve _ _ | MessagesList _ => true
  | Sleep _ | ConsoleLog _ | ConsoleError _ => false
  end.

(** A call of the assistant client. *)
Definition is_assistant (ev : event) : bool :=
  match ev with
  | ThreadsCreate | MessagesCreate _ _ _ | RunsCreate _ _
  | RunsRetrieve _ _ | MessagesList _ | Sleep _ => true
  | AxiosGet _ _ | ConsoleLog _ | ConsoleError _ => false
  end.

Definition count (p : event -> bool) (t : trace) : nat :=
  List.length (filter p t).

Section Calls.
Variable w : World.

Definition ASSISTANT_ID : jsstring := js "asst_N6FFm0AI1aNBtBAcSZKr1lLH".

(** The export URL; an unset [SHEET_ID] prints as [undefined], and
    [encodeURIComponent('Rank')] is [Rank]. *)
Definition sheet_url : jsstring :=
  js "https://docs.google.com/spreadsheets/d/"
  ++ match SHEET_ID w with Some id => id | None => js "undefined" end
  ++ js "/gviz/tq?tqx=out:csv&sheet=" ++ js "Rank".

(** [(await axios.get(url, config)).data] *)
Definition axios_get_data (timeout : option N) : M value :=
  emit (AxiosGet sheet_url timeout) ;; settle (axios_get w sheet_url).

Definition openai_threads_create : M jsstring :=
  emit ThreadsCreate ;; settle (threads_create w).

Definition openai_messages_create (thread : jsstring)
    (rankData : list RankRow) (query : value) : M unit :=
  emit (MessagesCreate thread rankData query) ;; settle (messages_create w thread).

Definition openai_runs_create (thread : jsstring) : M jsstring :=
  emit (RunsCreate thread ASSISTANT_ID) ;; settle (runs_create w thread).

(** [(await openai.beta.threads.runs.retrieve(thread.id, run.id)).status] *)
Definition openai_runs_retrieve (thread run : jsstring) : M jsstring :=
  fun t =>
    bind (emit (RunsRetrieve thread run))
         (fun _ => settle (runs_retrieve w (count is_retrieve t))) t.

Definition openai_messages_list (thread : jsstring) : M (list thread_message) :=
  emit (MessagesList thread) ;; settle (messages_list w thread).

(** [await new Promise(resolve => setTimeout(resolve, ms))] *)
Definition sleep (ms : N) : M unit := emit (Sleep ms).

Definition console_log (args : list logged) : M unit := emit (ConsoleLog args).
Definition console_error (args : list logged) : M unit := emit (ConsoleError args).

(** [messages.data[0].content[0].text.value] *)
Definition first_text (data : list thread_message) : outcome jsstring :=
  match data with
  | [] => Throw (TypeError "Cannot read properties of undefined (reading 'content')")
  | m :: _ =>
      match content m with
      | [] => Throw (TypeError "Cannot read properties of undefined (reading 'text')")
      | TextContent v :: _ => Ret v
      | ImageContent :: _ =>
          Throw (TypeError "Cannot read properties of undefined (reading 'value')")
      end
  end.

(** [status === 'queued' || status === 'in_progress'] *)
Definition pending (status : jsstring) : bool :=
  jsstring_eqb status (js "queued") || jsstring_eqb status (js "in_progress").

End Calls.

(** ** HTTP requests and responses *)

Record request : Type := mkRequest {
  method : jsstring;
  path : jsstring;
  req_body : value
}.

Inductive payload : Type :=
| Json (v : value)
| Text (s : jsstring).

Record response : Type := mkResponse {
  status : N;
  headers : list (jsstring * jsstring);
  body : payload
}.

(** [res.status(code).json(v)] and [res.json(v)] *)
Definition res_json (code : N) (v : value) : response :=
  {| status := code; headers := []; body := Json v |}.

(** The decimal text of a length inside a template string. *)
Definition decimal (n : nat) : jsstring :=
  js (NilZero.string_of_uint (Nat.to_uint n)).

(** ** [src/unnamed/part_000] *)

Module Server.
Section Server.
Variable w : World.
(** Budget of the [while_] combinator; [maxAttempts] iterations are all the
    loop below can take (see [getGPTResponse_fuel_enough]). *)
Variable fuel : nat.

Definition maxAttempts : nat := 60.

(** [getRankData]: fetch with a 10 s timeout, parse, and turn whatever was
    thrown into one fixed error. *)
Definition getRankData : M (list RankRow) :=
  try_catch
    (csv <- axios_get_data w (Some 10000%N) ;;
     lift (Csv.parse csv))
    (fun error =>
       console_error [LStr (js "Error fetching Google Sheets data:");
                      LStr (message error)] ;;
       throw (Error (js "Failed to fetch rank data from Google Sheets"))).

(** The polling loop: state is [(runStatus.status, attempts)]. *)
Definition poll_cond (s : jsstring * nat) : bool :=
  pending (fst s) && (snd s <? maxAttempts)%nat.

Definition poll_body (thread run : jsstring) (s : jsstring * nat)
    : M (jsstring * nat) :=
  sleep 1000 ;;
  runStatus <- openai_runs_retrieve w thread run ;;
  ret (runStatus, Datatypes.S (snd s)).

Definition run_ended (runStatus : jsstring) : error :=
  Error (js "Assistant run ended with status: " ++ runStatus).

Definition assistant_failed : error :=
  Error (js "Failed to get response from AI assistant").

Definition getGPTResponse (query : value) (rankData : list RankRow)
    : M jsstring :=
  try_catch
    (thread <- openai_threads_create w ;;
     openai_messages_create w thread rankData query ;;
     run <- openai_runs_create w thread ;;
     runStatus <- openai_runs_retrieve w thread run ;;
     s <- while_ fuel poll_cond (poll_body thread run) (runStatus, O) ;;
     let runStatus := fst s in
     if jsstring_eqb runStatus (js "completed") then
       messages <- openai_messages_list w thread ;;
       lift (first_text messages)
     else throw (run_ended runStatus))
    (fun error =>
       console_error [LStr (js "Error using OpenAI Assistant:");
                      LStr (message error)] ;;
       throw assistant_failed).

(** [query.trim() === ''], reached for strings only. *)
Definition trims_to_empty (query : value) : bool :=
  match query with
  | VString s => jsstring_eqb (trim s) []
  | _ => false
  end.

Definition invalid_request : value :=
  VObject
    [(js "error", VString (js "Invalid request"));
     (js "message", VString (js "Query is required and must be a non-empty string"));
     (js "example",
      VObject [(js "query", VString (js "What is the top ranked company?"))])].

Definition data_unavailable : value :=
  VObject
    [(js "error", VString (js "Data unavailable"));
     (js "message",
      VString (js "Could not fetch rank data from Google Sheets. Please try again later."))].

Definition processing_failed (errorMessage : jsstring) : value :=
  VObject
    [(js "success", VBool false);
     (js "error", VString (js "Processing failed"));
     (js "message", VString errorMessage);
     (js "timestamp", VString (clock w))].

Definition answered (answer : jsstring) : value :=
  VObject
    [(js "success", VBool true);
     (js "answer", VString answer);
     (js "timestamp", VString (clock w))].

(** [app.post('/query', ...)].  [!rankData] is never true of an array, so
    the second guard is the length test alone. *)
Definition post_query (req : request) : M response :=
  try_catch
    (query <- lift (destructure (js "query") (req_body req)) ;;
     if negb (truthy query) || negb (is_string query) || trims_to_empty query
     then ret (res_json 400 invalid_request)
     else
       console_log [LStr (js "Received query:"); LVal query] ;;
       rankData <- getRankData ;;
       if (List.length rankData =? 0)%nat
       then ret (res_json 500 data_unavailable)
       else
         console_log [LStr (js "Fetched " ++ decimal (List.length rankData)
                            ++ js " rows from Google Sheets")] ;;
         answer <- getGPTResponse query rankData ;;
         console_log [LStr (js "Generated answer successfully")] ;;
         ret (res_json 200 (answered answer)))
    (fun err =>
       console_error [LStr (js "Error processing query:"); LErr err] ;;
       let errorMessage :=
         match message err with
         | [] => js "An unexpected error occurred"
         | m => m
         end in
       ret (res_json 500 (processing_failed errorMessage))).

(** [app.get('/', ...)] *)
Definition get_root : M response :=
  ret (res_json 200
    (VObject
      [(js "status", VString (js "ok"));
       (js "message", VString (js "Chatbot Backend API is running"));
       (js "endpoints",
        VObject
          [(js "health", VString (js "GET / - Check API status"));
           (js "query",
            VString (js "POST /query - Send a query with rank data (body: { "
                     ++ QUOTE :: js "query" ++ QUOTE :: js ": "
                     ++ QUOTE :: js "your question" ++ QUOTE :: js " })"))]);
       (js "version", VString (js "1.0.0"))])).

(** [app.get('/health', ...)] *)
Definition get_health : M response :=
  ret (res_json 200
    (VObject
      [(js "status", VString (js "healthy"));
       (js "timestamp", VString (clock w))])).

(** The catch-all [app.use] after the routes. *)
Definition not_found (req : request) : M response :=
  ret (res_json 404
    (VObject
      [(js "error", VString (js "Not Found"));
       (js "message",
        VString (js "Route " ++ method req ++ js " " ++ path req
                 ++ js " does not exist"));
       (js "availableEndpoints",
        VObject
          [(js "health", VString (js "GET /"));
           (js "query", VString (js "POST /query"))])])).

Definition cors_headers : list (jsstring * jsstring) :=
  [(js "Access-Control-Allow-Origin", js "*");
   (js "Access-Control-Allow-Methods", js "GET, POST, OPTIONS");
   (js "Access-Control-Allow-Headers", js "Content-Type, Authorization")].

Definition with_headers (h : list (jsstring * jsstring)) (r : response)
    : response :=
  {| status := status r; headers := h ++ headers r; body := body r |}.

(** The middleware chain: CORS headers on every response, [OPTIONS]
    answered at once, then the routes in the order they are registered.
    [req_body] is the body as [express.json()] left it. *)
Definition app (req : request) : M response :=
  r <- (if jsstring_eqb (method req) (js "OPTIONS")
        then ret {| status := 200; headers := []; body := Text (js "OK") |}
        else if jsstring_eqb (method req) (js "GET")
                && jsstring_eqb (path req) (js "/")
        then get_root
        else if jsstring_eqb (method req) (js "GET")
                && jsstring_eqb (path req) (js "/health")
        then get_health
        else if jsstring_eqb (method req) (js "POST")
                && jsstring_eqb (path req) (js "/query")
        then post_query req
        else not_found req) ;;
  ret (with_headers cors_headers r).

End Server.
End Server.

(** ** [src/index.js] *)

Module Index.
Section Index.
Variable w : World.
(** Budget of the [while_] combinator; this file's loop has no bound of its
    own. *)
Variable fuel : nat.

(** [getRankData]: no timeout, no [try]. *)
Definition getRankData : M (list RankRow) :=
  csv <- axios_get_data w None ;;
  lift (Csv.parse csv).

Definition poll_body (thread run : jsstring) (_ : jsstring) : M jsstring :=
  sleep 1000 ;;
  openai_runs_retrieve w thread run.

Definition run_ended (runStatus : jsstring) : error :=
  Error (js "Run ended with status: " ++ runStatus).

Definition getGPTResponse (query : value) (rankData : list RankRow)
    : M jsstring :=
  try_catch
    (thread <- openai_threads_create w ;;
     openai_messages_create w thread rankData query ;;
     run <- openai_runs_create w thread ;;
     runStatus <- openai_runs_retrieve w thread run ;;
     runStatus <- while_ fuel pending (poll_body thread run) runStatus ;;
     if jsstring_eqb runStatus (js "completed") then
       messages <- openai_messages_list w thread ;;
       lift (first_text messages)
     else throw (run_ended runStatus))
    (fun error =>
       console_error [LStr (js "Error using Assistant:"); LErr error] ;;
       throw error).

(** [err.response?.data?.error?.message || err.message || "Server error"] *)
Definition error_text (err : error) : value :=
  if truthy (api_message err) then api_message err
  else match message err with
       | [] => VString (js "Server error")
       | m => VString m
       end.

(** [app.post('/query', ...)] *)
Definition post_query (req : request) : M response :=
  try_catch
    (query <- lift (destructure (js "query") (req_body req)) ;;
     if negb (truthy query)
     then ret (res_json 400 (VObject [(js "error", VString (js "Query is required"))]))
     else
       rankData <- getRankData ;;
       if (List.length rankData =? 0)%nat
       then ret (res_json 500
              (VObject [(js "error",
                         VString (js "Could not fetch rank data from Google Sheets"))]))
       else
         answer <- getGPTResponse query rankData ;;
         ret (res_json 200 (VObject [(js "answer", VString answer)])))
    (fun err =>
       console_error [LStr (js "Error processing query:"); LErr err] ;;
       ret (res_json 500 (VObject [(js "error", error_text err)]))).

End Index.
End Index.

(** ** [part_000] as Express runs it *)

(** The chain of [part_000] with the two things Express decides before a
    handler of the file runs: whether [express.json()] (line 21) passes
    the request on, and which registered route a method and a path reach.
    [Server.app] is this chain for a request whose body was passed on and
    whose method and path are written as the routes are registered. *)
Module Express.

(** [s.toLowerCase()] on the ASCII letters, the only units by which a
    method or a path can differ in case from a registered one. *)
Definition lowcase (c : N) : N :=
  if ((65 <=? c) && (c <=? 90))%N then (c + 32)%N else c.

Definition lower (s : jsstring) : jsstring := map lowcase s.

(** A route registered for [verb] handles that method, the two compared
    in lower case; a [get] route also handles [HEAD], no [head] route
    being registered. *)
Definition method_matches (verb : jsstring) (req : request) : bool :=
  let m := lower (method req) in
  jsstring_eqb m (lower verb)
  || (jsstring_eqb (lower verb) (js "get") && jsstring_eqb m (js "head")).

Definition without_last_slash (p : jsstring) : jsstring :=
  match rev p with
  | c :: r => if (c =? 47)%N then rev r else p
  | [] => []
  end.

(** The pattern built for a registered path without parameters, neither
    strict nor case sensitive: the path, a slash at its end optional, read
    against the whole [req.path] without regard to case. *)
Definition path_matches (pattern : jsstring) (req : request) : bool :=
  let base := lower (without_last_slash pattern) in
  let p := lower (path req) in
  jsstring_eqb p base || jsstring_eqb p (base ++ js "/").

Definition route (verb pattern : jsstring) (req : request) : bool :=
  method_matches verb req && path_matches pattern req.

(** What [express.json()] did with the request: passed it on, [req.body]
    set, or refused it, in which case the default error handler answers
    with the status of the parser's error and a page of its own. *)
Inductive parser_result : Type :=
| Passed
| Refused (code : N) (page : jsstring).

(** A response to a [HEAD] request goes out without its payload. *)
Definition on_the_wire (req : request) (r : response) : response :=
  if jsstring_eqb (method req) (js "HEAD")
  then {| status := status r; headers := headers r; body := Text [] |}
  else r.

Section Serve.
Variable w : World.
Variable fuel : nat.

(** Lines 9 to 182 in the order of registration: the CORS middleware, the
    body parser, the three routes, the catch-all. *)
Definition serve (parsed : parser_result) (req : request) : M response :=
  if jsstring_eqb (method req) (js "OPTIONS")
  then ret {| status := 200; headers := Server.cors_headers;
              body := Text (js "OK") |}
  else
    match parsed with
    | Refused code page =>
        ret (on_the_wire req
               {| status := code; headers := Server.cors_headers;
                  body := Text page |})
    | Passed =>
        r <- (if route (js "GET") (js "/") req then Server.get_root
              else if route (js "GET") (js "/health") req
              then Server.get_health w
              else if route (js "POST") (js "/query") req
              then Server.post_query w fuel req
              else Server.not_found req) ;;
        ret (on_the_wire req (Server.with_headers Server.cors_headers r))
    end.

End Serve.
End Express.

(** ** Sample worlds and requests *)

(** A world whose sheet export settles as [csv] and whose run reports
    [statuses]; every other assistant call succeeds. *)
Definition scripted_world (csv : reply value) (statuses : nat -> jsstring)
    : World :=
  {| SHEET_ID := Some (js "sheet-1");
     clock := js "2024-05-01T12:00:00.000Z";
     axios_get := fun _ => csv;
     threads_create := Resolve (js "thread_1");
     messages_create := fun _ => Resolve tt;
     runs_create := fun _ => Resolve (js "run_1");
     runs_retrieve := fun k => Resolve (statuses k);
     messages_list := fun _ =>
       Resolve [{| content := [TextContent (js "Acme is first.")] |}] |}.

(** [POST /query] with the body [{ "query": q }]. *)
Definition ask (q : value) : request :=
  {| method := js "POST"; path := js "/query";
     req_body := VObject [(js "query", q)] |}.

Definition one_row : list RankRow := [{| Rank := js "1"; Company := js "Acme" |}].

Definition good_sheet : reply value :=
  Resolve (VString (js "Rank,Company" ++ LF :: js "1,Acme")).

(** The run never leaves [queued]. *)
Definition stuck_world : World := scripted_world good_sheet (fun _ => js "queued").

(** The run is [queued], then [in_progress], then [expired]. *)
Definition expiring (k : nat) : jsstring :=
  match k with
  | O => js "queued"
  | S O => js "in_progress"
  | _ => js "expired"
  end.
Definition expired_world : World := scripted_world good_sheet expiring.

(** The run is [queued], then [in_progress], then [completed]. *)
Definition completing (k : nat) : jsstring :=
  match k with
  | O => js "queued"
  | S O => js "in_progress"
  | _ => js "completed"
  end.
Definition happy_world : World := scripted_world good_sheet completing.

(** The sheet export times out. *)
Definition down_world : World :=
  scripted_world (Reject (Error (js "timeout of 10000ms exceeded")))
                 (fun _ => js "completed").

(** The sheet export answers with a header and nothing else. *)
Definition bare_world : World :=
  scripted_world (Resolve (VString (js "Rank,Company" ++ [CR; LF])))
                 (fun _ => js "completed").

(** ** What the claims speak of *)

(** The query is missing, is not a string, or trims to the empty string. *)
Definition unusable (query : value) : Prop :=
  match query with
  | VString s => trim s = []
  | _ => True
  end.

(** The property names of an object, in order. *)
Definition keys (v : value) : list jsstring :=
  match v with
  | VObject props => map fst props
  | _ => []
  end.

(** [st] occurs in [msg]. *)
Fixpoint starts_with (st msg : jsstring) : bool :=
  match st, msg with
  | [], _ => true
  | c :: st', d :: msg' => (c =? d)%N && starts_with st' msg'
  | _ :: _, [] => false
  end.

Fixpoint mentions (msg st : jsstring) : bool :=
  starts_with st msg ||
  match msg with
  | _ :: r => mentions r st
  | [] => false
  end.

(** [m] only appends to the trace it is given. *)
Definition extends {A : Type} (m : M A) : Prop :=
  forall t, exists o ext, m t = (o, t ++ ext).

(** [i] is the first position of [l] whose element passes [p]. *)
Definition first_index {A} (p : A -> bool) (l : list A) (i : nat) : Prop :=
  (exists x, nth_error l i = Some x /\ p x = true)
  /\ forall k y, (k < i)%nat -> nth_error l k = Some y -> p y = false.


(** A sheet with the two columns swapped, a blank line between the rows. *)
Definition swapped_sheet : jsstring :=
  js "Company,Rank" ++ CR :: LF :: js "Acme,1" ++ LF :: LF :: js "Beta,2".

(** A sheet whose second row writes a company with an embedded comma. *)
Definition quoted_sheet : jsstring :=
  js "Rank,Company" ++ LF :: js "1," ++ QUOTE :: js "Acme, Inc." ++ [QUOTE].

(** A sheet with every field in quotes, white space inside one of them. *)
Definition all_quoted_sheet : jsstring :=
  QUOTE :: js "Rank" ++ QUOTE :: COMMA :: QUOTE :: js "Company" ++ QUOTE
  :: LF :: QUOTE :: js "1" ++ QUOTE :: COMMA :: QUOTE :: js "Acme" ++ QUOTE
  :: LF :: QUOTE :: js "2" ++ QUOTE :: COMMA :: QUOTE :: js " Beta Co "
  ++ [QUOTE].

(** A sheet with neither column, and one whose data line is short. *)
Definition nameless_sheet : jsstring :=
  js "Position,Firm" ++ LF :: js "1,Acme".

Definition short_sheet : jsstring :=
  js "Rank,Company" ++ LF :: js "7".

(** The export answers with the sheet that has neither column. *)
Definition nameless_world : World :=
  scripted_world (Resolve (VString nameless_sheet)) (fun _ => js "completed").

(** ** Notions for the further properties *)

(** [pieces.join(sep)] for a one-unit separator. *)
Fixpoint join (sep : N) (pieces : list jsstring) : jsstring :=
  match pieces with
  | [] => []
  | p :: ps =>
      match ps with
      | [] => p
      | _ :: _ => p ++ sep :: join sep ps
      end
  end.

(** The same text with every line feed written as CR LF. *)
Fixpoint to_crlf (s : jsstring) : jsstring :=
  match s with
  | [] => []
  | c :: r => if (c =? LF)%N then CR :: LF :: to_crlf r else c :: to_crlf r
  end.

(** [mid] spells the lower-case word [pat], each letter in either case. *)
Definition spells (pat mid : jsstring) : Prop :=
  Forall2 (fun p c => c = p \/ c = (p - 32)%N) pat mid.

(** [s] holds the word [pat] somewhere, in any mix of cases. *)
Definition holds_word (pat s : jsstring) : Prop :=
  exists pre mid post, s = pre ++ mid ++ post /\ spells pat mid.

(** An ASCII lower-case letter. *)
Definition lower_case (p : N) : Prop := (97 <= p /\ p <= 122)%N.

(** [f] has white space at neither end. *)
Definition no_outer_space (f : jsstring) : Prop :=
  (forall x r, f = x :: r -> isWhiteSpace x = false)
  /\ (forall r x, f = r ++ [x] -> isWhiteSpace x = false).

Definition is_axios (ev : event) : bool :=
  match ev with
  | AxiosGet _ _ => true
  | _ => false
  end.

Definition is_threads_create (ev : event) : bool :=
  match ev with
  | ThreadsCreate => true
  | _ => false
  end.

Definition is_messages_create (ev : event) : bool :=
  match ev with
  | MessagesCreate _ _ _ => true
  | _ => false
  end.

Definition is_runs_create (ev : event) : bool :=
  match ev with
  | RunsCreate _ _ => true
  | _ => false
  end.

Definition is_messages_list (ev : event) : bool :=
  match ev with
  | MessagesList _ => true
  | _ => false
  end.

(** The message the [catch] of the [part_000] handler sends: the error's own,
    or [An unexpected error occurred] when that is empty. *)
Definition shown_message (e : error) : jsstring :=
  match message e with
  | [] => js "An unexpected error occurred"
  | m => m
  end.

(** A round of the polling loops: a sleep or a retrieve. *)
Definition is_poll (ev : event) : bool := is_sleep ev || is_retrieve ev.

(** * Properties *)

(** ** String primitives *)

Section StringFacts.

Lemma trimStart_split (s : jsstring) :
  exists ws, s = ws ++ trimStart s /\ forallb isWhiteSpace ws = true.
Proof.
  induction s as [|c r IH]; simpl.
  - exists []. auto.
  - destruct (isWhiteSpace c) eqn:Hc.
    + destruct IH as [ws [E F]]. exists (c :: ws). simpl.
      rewrite Hc, F. split; [congruence | reflexivity].
    + exists []. auto.
Qed.

Lemma trimStart_head (s : jsstring) c r :
  trimStart s = c :: r -> isWhiteSpace c = false.
Proof.
  induction s as [|a s IH]; simpl; [discriminate|].
  destruct (isWhiteSpace a) eqn:Ha; [exact IH|].
  intros E. inversion E. subst. exact Ha.
Qed.

Lemma trimStart_fixed (s : jsstring) c r :
  s = c :: r -> isWhiteSpace c = false -> trimStart s = s.
Proof. intros -> H. simpl. now rewrite H. Qed.

Lemma forallb_rev {A} (p : A -> bool) (l : list A) :
  forallb p (rev l) = forallb p l.
Proof.
  induction l as [|a l IH]; simpl; [reflexivity|].
  rewrite forallb_app, IH. simpl. rewrite andb_true_r. apply andb_comm.
Qed.

(** [trim] cuts a run of white space off each end and leaves a string that
    neither starts nor ends with white space. *)
Lemma trim_split (s : jsstring) :
  exists w1 w2,
    s = w1 ++ trim s ++ w2
    /\ forallb isWhiteSpace w1 = true
    /\ forallb isWhiteSpace w2 = true
    /\ (forall c r, trim s = c :: r -> isWhiteSpace c = false)
    /\ (forall r c, trim s = r ++ [c] -> isWhiteSpace c = false).
Proof.
  unfold trim, trimEnd.
  destruct (trimStart_split s) as [w1 [E1 F1]].
  destruct (trimStart_split (rev (trimStart s))) as [w2 [E2 F2]].
  set (a := trimStart s) in *.
  set (b := trimStart (rev a)) in *.
  assert (Ea : a = rev b ++ rev w2).
  { rewrite <- rev_app_distr, <- E2. now rewrite rev_involutive. }
  exists w1, (rev w2). repeat split.
  - now rewrite <- Ea.
  - exact F1.
  - now rewrite forallb_rev.
  - intros c r Hb. rewrite Hb in Ea. simpl in Ea.
    apply (trimStart_head s c (r ++ rev w2)). exact Ea.
  - intros r c Hb.
    assert (Eb : b = c :: rev r).
    { rewrite <- (rev_involutive b), Hb, rev_app_distr. reflexivity. }
    apply (trimStart_head (rev a) c (rev r)). exact Eb.
Qed.

Lemma strip_leading_quote_split (s : jsstring) :
  exists q, s = q ++ strip_leading_quote s /\ (q = [] \/ q = [QUOTE]).
Proof.
  destruct s as [|c r]; simpl.
  - exists []. auto.
  - destruct (N.eqb_spec c QUOTE) as [->|_].
    + exists [QUOTE]. auto.
    + exists []. auto.
Qed.

Lemma strip_trailing_quote_split (s : jsstring) :
  exists q, s = strip_trailing_quote s ++ q /\ (q = [] \/ q = [QUOTE]).
Proof.
  unfold strip_trailing_quote.
  destruct (strip_leading_quote_split (rev s)) as [q [E Hq]].
  exists q. split; [|exact Hq].
  rewrite <- (rev_involutive s) at 1. rewrite E at 1.
  rewrite rev_app_distr. f_equal.
  destruct Hq as [-> | ->]; reflexivity.
Qed.

Lemma replace_outer_quotes_split (s : jsstring) :
  exists q1 q2,
    s = q1 ++ replace_outer_quotes s ++ q2
    /\ (q1 = [] \/ q1 = [QUOTE]) /\ (q2 = [] \/ q2 = [QUOTE]).
Proof.
  unfold replace_outer_quotes.
  destruct (strip_leading_quote_split s) as [q1 [E1 H1]].
  destruct (strip_trailing_quote_split (strip_leading_quote s)) as [q2 [E2 H2]].
  exists q1, q2. repeat split; try assumption.
  now rewrite <- E2.
Qed.

Lemma findIndex_lower {A} (p : A -> bool) (l : list A) :
  (-1 <= findIndex p l)%Z.
Proof.
  induction l as [|x r IH]; simpl; [lia|].
  destruct (p x); [lia|].
  destruct (Z.ltb_spec (findIndex p r) 0); lia.
Qed.

(** [findIndex] is -1 exactly on a list where nothing passes. *)
Lemma findIndex_none {A} (p : A -> bool) (l : list A) :
  (forall x, In x l -> p x = false) -> findIndex p l = (-1)%Z.
Proof.
  induction l as [|x r IH]; simpl; intros H; [reflexivity|].
  rewrite (H x) by auto. rewrite IH by auto. reflexivity.
Qed.

Lemma findIndex_first {A} (p : A -> bool) (l : list A) (i : nat) :
  first_index p l i -> findIndex p l = Z.of_nat i.
Proof.
  revert i. induction l as [|x r IH]; intros i [[y [Hy Py]] Hmin].
  - destruct i; discriminate.
  - simpl. destruct i as [|i].
    + simpl in Hy. inversion Hy. subst. now rewrite Py.
    + rewrite (Hmin O x) by (simpl; auto; lia).
      rewrite (IH i).
      * destruct (Z.ltb_spec (Z.of_nat i) 0); lia.
      * split; [exists y; auto|].
        intros k z Hk Hz. apply (Hmin (S k) z); [lia | exact Hz].
Qed.

Lemma index_of_nat {A} (l : list A) (i : nat) :
  index l (Z.of_nat i) = nth_error l i.
Proof.
  unfold index. destruct (Z.ltb_spec (Z.of_nat i) 0); [lia|].
  now rewrite Nat2Z.id.
Qed.

Lemma or_else_nth (l : list jsstring) (i : nat) :
  or_else (nth_error l i) [] = nth i l [].
Proof.
  revert i. induction l as [|x r IH]; intros [|i]; simpl; auto.
  now destruct x.
Qed.

Lemma or_else_beyond (l : list jsstring) (i : Z) :
  (Z.of_nat (List.length l) <= i)%Z -> or_else (index l i) [] = [].
Proof.
  intros H. unfold index. destruct (Z.ltb_spec i 0); [reflexivity|].
  assert (E : nth_error l (Z.to_nat i) = None) by (apply nth_error_None; lia).
  now rewrite E.
Qed.

End StringFacts.

(** ** The CSV parsing stage *)

Section CsvFacts.

(** On a string the stage never throws: it maps the lines after the header
    through [row_of] at the two indices found in the header. *)
Lemma parse_string (body : jsstring) :
  parse (VString body) =
  Ret match nonblank_lines body with
      | [] => []
      | hdr :: rest =>
          map (row_of (findIndex rank_like (fields hdr))
                      (findIndex company_like (fields hdr))) rest
      end.
Proof.
  unfold parse. simpl. fold (nonblank_lines body).
  destruct (nonblank_lines body) as [|hdr rest]; reflexivity.
Qed.

Lemma row_of_at (i j : nat) (line : jsstring) :
  row_of (Z.of_nat i) (Z.of_nat j) line =
  {| Rank := nth i (fields line) []; Company := nth j (fields line) [] |}.
Proof.
  unfold row_of. now rewrite !index_of_nat, !or_else_nth.
Qed.

Lemma or_else_index_cases (cols : list jsstring) (i : Z) :
  or_else (index cols i) [] = []
  \/ In (or_else (index cols i) []) cols.
Proof.
  unfold index. destruct (i <? 0)%Z; [now left|].
  destruct (nth_error cols (Z.to_nat i)) as [s|] eqn:E; [|now left].
  destruct s as [|c r]; [now left|].
  right. simpl. eapply nth_error_In. exact E.
Qed.

Lemma field_is_cleaned_piece (line : jsstring) (i : Z) :
  or_else (index (fields line) i) [] = []
  \/ exists c, In c (split_on COMMA line)
               /\ or_else (index (fields line) i) [] = clean c.
Proof.
  destruct (or_else_index_cases (fields line) i) as [E|H]; [now left|].
  right. unfold fields in H at 2. apply in_map_iff in H.
  destruct H as [c [Hc Hin]]. exists c. split; [exact Hin | now symmetry].
Qed.

Lemma clean_split (c : jsstring) :
  exists q1 w1 w2 q2,
    c = q1 ++ w1 ++ clean c ++ w2 ++ q2
    /\ (q1 = [] \/ q1 = [QUOTE]) /\ (q2 = [] \/ q2 = [QUOTE])
    /\ forallb isWhiteSpace w1 = true /\ forallb isWhiteSpace w2 = true
    /\ (forall x r, clean c = x :: r -> isWhiteSpace x = false)
    /\ (forall r x, clean c = r ++ [x] -> isWhiteSpace x = false).
Proof.
  unfold clean.
  destruct (replace_outer_quotes_split c) as [q1 [q2 [E [H1 H2]]]].
  destruct (trim_split (replace_outer_quotes c))
    as [w1 [w2 [E' [F1 [F2 [Hh Hl]]]]]].
  exists q1, w1, w2, q2. repeat split; try assumption.
  rewrite E at 1. rewrite E' at 1. now rewrite <- !app_assoc.
Qed.

End CsvFacts.

(** C1. When the first non-blank line is a header whose first rank-like
    column is at position [i] and first company-like column at position [j],
    whatever their order, the parser returns one record per later non-blank
    line, in the order of the lines, the record of a line holding the
    line's field number [i] as Rank and its field number [j] as Company (a
    missing field reads as the empty string). *)
Theorem parse_maps_columns_by_header (body hdr : jsstring)
    (rest : list jsstring) (i j : nat) :
  nonblank_lines body = hdr :: rest ->
  first_index rank_like (fields hdr) i ->
  first_index company_like (fields hdr) j ->
  exists rows,
    parse (VString body) = Ret rows
    /\ List.length rows = List.length rest
    /\ forall k line, nth_error rest k = Some line ->
         nth_error rows k =
         Some {| Rank := nth i (fields line) [];
                 Company := nth j (fields line) [] |}.
Proof.
  intros Hl Hi Hj. rewrite parse_string, Hl.
  rewrite (findIndex_first _ _ _ Hi), (findIndex_first _ _ _ Hj).
  eexists. split; [reflexivity|]. split; [apply length_map|].
  intros k line Hk.
  rewrite nth_error_map, Hk. simpl. now rewrite row_of_at.
Qed.

Lemma parse_maps_columns_by_header_witness :
  exists rows,
    parse (VString swapped_sheet) = Ret rows
    /\ List.length rows = 2%nat
    /\ forall k line, nth_error [js "Acme,1"; js "Beta,2"] k = Some line ->
         nth_error rows k =
         Some {| Rank := nth 1 (fields line) [];
                 Company := nth 0 (fields line) [] |}.
Proof.
  apply (parse_maps_columns_by_header swapped_sheet (js "Company,Rank")
           [js "Acme,1"; js "Beta,2"] 1 0).
  - vm_compute. reflexivity.
  - split.
    + exists (js "Rank"). split; vm_compute; reflexivity.
    + intros k y Hk Hy. destruct k as [|k]; [|lia].
      vm_compute in Hy. inversion Hy. vm_compute. reflexivity.
  - split.
    + exists (js "Company"). split; vm_compute; reflexivity.
    + intros k y Hk. lia.
Defined.

Section QuoteFacts.

Lemma strip_trailing_quote_snoc (s : jsstring) :
  strip_trailing_quote (s ++ [QUOTE]) = s.
Proof.
  unfold strip_trailing_quote. rewrite rev_app_distr. simpl.
  apply rev_involutive.
Qed.

Lemma strip_leading_quote_keep (s : jsstring) :
  (forall r, s <> QUOTE :: r) -> strip_leading_quote s = s.
Proof.
  destruct s as [|c r]; [reflexivity|]. intros H. simpl.
  destruct (N.eqb_spec c QUOTE) as [->|_]; [now elim (H r) | reflexivity].
Qed.

Lemma strip_trailing_quote_keep (s : jsstring) :
  (forall r, s <> r ++ [QUOTE]) -> strip_trailing_quote s = s.
Proof.
  intros H. unfold strip_trailing_quote.
  rewrite strip_leading_quote_keep; [apply rev_involutive|].
  intros r E. apply (H (rev r)).
  rewrite <- (rev_involutive s), E. reflexivity.
Qed.

(** What [clean] does to a quote at either end, case by case. *)
Lemma clean_both_quotes (s : jsstring) :
  clean (QUOTE :: s ++ [QUOTE]) = trim s.
Proof.
  unfold clean, replace_outer_quotes. simpl.
  now rewrite strip_trailing_quote_snoc.
Qed.

Lemma clean_leading_quote (s : jsstring) :
  (forall r, s <> r ++ [QUOTE]) -> clean (QUOTE :: s) = trim s.
Proof.
  intros H. unfold clean, replace_outer_quotes. simpl.
  now rewrite strip_trailing_quote_keep.
Qed.

Lemma clean_trailing_quote (s : jsstring) :
  (forall r, s <> QUOTE :: r) -> clean (s ++ [QUOTE]) = trim s.
Proof.
  intros H. unfold clean, replace_outer_quotes.
  destruct s as [|c r]; [reflexivity|].
  rewrite strip_leading_quote_keep.
  - now rewrite strip_trailing_quote_snoc.
  - intros r' E. simpl in E. inversion E. subst. now elim (H r).
Qed.

Lemma clean_no_quotes (s : jsstring) :
  (forall r, s <> QUOTE :: r) -> (forall r, s <> r ++ [QUOTE]) ->
  clean s = trim s.
Proof.
  intros H1 H2. unfold clean, replace_outer_quotes.
  now rewrite (strip_leading_quote_keep s H1), strip_trailing_quote_keep.
Qed.

End QuoteFacts.

(** C9. Every field the parser uses is a raw comma piece of its line with
    at most one quote taken off each end and the white space inside that
    stripped from both sides: the raw piece is [q1 ++ w1 ++ clean c ++ w2
    ++ q2] with [q1], [q2] empty or one quote and [w1], [w2] white space,
    and [clean c] has white space at neither end.  A quote at an end is
    taken off: a piece written with a quote at both ends, at the start
    only or at the end only comes back as the trimmed text between or
    beside them, and a piece with a quote at neither end is trimmed only.
    The header fields that the two searches test and the fields the
    records hold are such cleaned pieces; a sheet whose every field is in
    quotes parses to the bare values, and a company written as a quoted
    text with an embedded comma is still cut at the comma, its two halves
    coming back without the opening and the closing quote. *)
Theorem fields_are_cleaned_pieces :
  (forall c, exists q1 w1 w2 q2,
      c = q1 ++ w1 ++ clean c ++ w2 ++ q2
      /\ (q1 = [] \/ q1 = [QUOTE]) /\ (q2 = [] \/ q2 = [QUOTE])
      /\ forallb isWhiteSpace w1 = true /\ forallb isWhiteSpace w2 = true
      /\ (forall x r, clean c = x :: r -> isWhiteSpace x = false)
      /\ (forall r x, clean c = r ++ [x] -> isWhiteSpace x = false))
  /\ ((forall s, clean (QUOTE :: s ++ [QUOTE]) = trim s)
      /\ (forall s, (forall r, s <> r ++ [QUOTE]) ->
                    clean (QUOTE :: s) = trim s)
      /\ (forall s, (forall r, s <> QUOTE :: r) ->
                    clean (s ++ [QUOTE]) = trim s)
      /\ (forall s, (forall r, s <> QUOTE :: r) ->
                    (forall r, s <> r ++ [QUOTE]) ->
                    clean s = trim s))
  /\ (forall body hdr rest rows,
        nonblank_lines body = hdr :: rest ->
        parse (VString body) = Ret rows ->
        let headers := map clean (split_on COMMA hdr) in
        rows = map (row_of (findIndex rank_like headers)
                           (findIndex company_like headers)) rest
        /\ forall r, In r rows ->
             exists line, In line rest
               /\ (Rank r = [] \/
                   exists c, In c (split_on COMMA line) /\ Rank r = clean c)
               /\ (Company r = [] \/
                   exists c, In c (split_on COMMA line) /\ Company r = clean c))
  /\ parse (VString quoted_sheet)
     = Ret [{| Rank := js "1"; Company := js "Acme" |}]
  /\ fields (js "1," ++ QUOTE :: js "Acme, Inc." ++ [QUOTE])
     = [js "1"; js "Acme"; js "Inc."]
  /\ parse (VString all_quoted_sheet)
     = Ret [{| Rank := js "1"; Company := js "Acme" |};
            {| Rank := js "2"; Company := js "Beta Co" |}].
Proof.
  split; [exact clean_split|].
  split; [repeat split;
          [exact clean_both_quotes | exact clean_leading_quote
           | exact clean_trailing_quote | exact clean_no_quotes]|].
  split; [|repeat split; vm_compute; reflexivity].
  intros body hdr rest rows Hl Hp headers.
  rewrite parse_string, Hl in Hp. inversion Hp as [E]. clear Hp.
  split; [reflexivity|].
  intros r Hr. apply in_map_iff in Hr. destruct Hr as [line [<- Hin]].
  exists line. split; [exact Hin|]. unfold row_of. simpl.
  split; apply field_is_cleaned_piece.
Qed.

Lemma fields_are_cleaned_pieces_witness :
  (exists line, In line [QUOTE :: js "2" ++ QUOTE :: COMMA :: QUOTE
                         :: js " Beta Co " ++ [QUOTE]]
     /\ (js "2" = [] \/
         exists c, In c (split_on COMMA line) /\ js "2" = clean c)
     /\ (js "Beta Co" = [] \/
         exists c, In c (split_on COMMA line) /\ js "Beta Co" = clean c))
  /\ clean (QUOTE :: js "Acme") = trim (js "Acme")
  /\ clean (js "Acme" ++ [QUOTE]) = trim (js "Acme")
  /\ clean (js " Acme ") = trim (js " Acme ").
Proof.
  destruct fields_are_cleaned_pieces as [_ [[_ [HL [HT HN]]] [H _]]].
  assert (NL : forall s, (exists x r, s = x :: r /\ x <> QUOTE) ->
                         forall r, s <> QUOTE :: r).
  { intros s [x [r0 [-> Hx]]] r E. inversion E. contradiction. }
  assert (NT : forall s, (exists x r, rev s = x :: r /\ x <> QUOTE) ->
                         forall r, s <> r ++ [QUOTE]).
  { intros s [x [r0 [Er Hx]]] r E. rewrite E, rev_app_distr in Er.
    simpl in Er. inversion Er. now subst. }
  split; [|split; [|split]].
  - destruct (H all_quoted_sheet
                (QUOTE :: js "Rank" ++ QUOTE :: COMMA :: QUOTE
                 :: js "Company" ++ [QUOTE])
                [QUOTE :: js "1" ++ QUOTE :: COMMA :: QUOTE
                 :: js "Acme" ++ [QUOTE];
                 QUOTE :: js "2" ++ QUOTE :: COMMA :: QUOTE
                 :: js " Beta Co " ++ [QUOTE]]
                [{| Rank := js "1"; Company := js "Acme" |};
                 {| Rank := js "2"; Company := js "Beta Co" |}]) as [_ H'].
    + vm_compute. reflexivity.
    + vm_compute. reflexivity.
    + destruct (H' {| Rank := js "2"; Company := js "Beta Co" |})
        as [line [[E|[E|[]]] [HR HC]]]; [right; now left | |].
      * exfalso. subst line.
        destruct HR as [HR|[c [Hc HR]]]; [discriminate|].
        vm_compute in Hc. destruct Hc as [<-|[<-|[]]]; discriminate.
      * subst line. eexists. split; [now left|]. split; assumption.
  - apply HL. apply NT. vm_compute. eexists _, _. split; [reflexivity|].
    discriminate.
  - apply HT. apply NL. vm_compute. eexists _, _. split; [reflexivity|].
    discriminate.
  - apply HN.
    + apply NL. vm_compute. eexists _, _. split; [reflexivity|].
      discriminate.
    + apply NT. vm_compute. eexists _, _. split; [reflexivity|].
      discriminate.
Defined.

(** C10. On every string body the parsing stage returns a sequence of
    records and throws nothing; a data line with no field at the index
    found for a column gives the empty string for that column. *)
Theorem parse_total (body : jsstring) :
  exists rows,
    parse (VString body) = Ret rows
    /\ forall hdr rest k line,
         nonblank_lines body = hdr :: rest ->
         nth_error rest k = Some line ->
         exists r,
           nth_error rows k = Some r
           /\ ((Z.of_nat (List.length (fields line))
                <= findIndex rank_like (fields hdr))%Z -> Rank r = [])
           /\ ((Z.of_nat (List.length (fields line))
                <= findIndex company_like (fields hdr))%Z -> Company r = []).
Proof.
  rewrite parse_string. eexists. split; [reflexivity|].
  intros hdr rest k line Hl Hk. rewrite Hl.
  eexists. split.
  - rewrite nth_error_map, Hk. reflexivity.
  - unfold row_of. simpl. split; apply or_else_beyond.
Qed.

Lemma parse_total_witness :
  parse (VString short_sheet) = Ret [{| Rank := js "7"; Company := [] |}].
Proof.
  destruct (parse_total short_sheet) as [rows [E H]].
  destruct (H (js "Rank,Company") [js "7"] O (js "7")) as [r [Hr [_ HC]]].
  - vm_compute. reflexivity.
  - reflexivity.
  - rewrite E in *. vm_compute in E. inversion E. subst rows.
    reflexivity.
Defined.

(** ** Traces and the polling loops *)

Section TraceFacts.

Lemma count_app (p : event -> bool) (t t' : trace) :
  count p (t ++ t') = (count p t + count p t')%nat.
Proof. unfold count. now rewrite filter_app, length_app. Qed.

Lemma pending_not_completed (st : jsstring) :
  pending st = true -> jsstring_eqb st (js "completed") = false.
Proof.
  unfold pending, jsstring_eqb.
  destruct (list_eq_dec N.eq_dec st (js "queued")) as [->|_]; [reflexivity|].
  destruct (list_eq_dec N.eq_dec st (js "in_progress")) as [->|_];
    [reflexivity | discriminate].
Qed.

Lemma jsstring_eqb_eq (a b : jsstring) : jsstring_eqb a b = true <-> a = b.
Proof.
  unfold jsstring_eqb. destruct (list_eq_dec N.eq_dec a b); split;
    congruence.
Qed.

Lemma while_step {S : Type} (fuel : nat) (cond : S -> bool)
    (body : S -> M S) (s : S) (t : trace) :
  while_ (Datatypes.S fuel) cond body s t =
  if cond s then
    match body s t with
    | (Ret s', t') => while_ fuel cond body s' t'
    | (Throw e, t') => (Throw e, t')
    | (OutOfFuel, t') => (OutOfFuel, t')
    end
  else (Ret s, t).
Proof. simpl. destruct (cond s); reflexivity. Qed.

Lemma while_done {S : Type} (fuel : nat) (cond : S -> bool)
    (body : S -> M S) (s : S) (t : trace) :
  cond s = false -> while_ fuel cond body s t = (Ret s, t).
Proof. intros H. destruct fuel; simpl; now rewrite H. Qed.

Variable w : World.
Variables thread run : jsstring.

Lemma retrieve_eq (t : trace) :
  openai_runs_retrieve w thread run t =
  match runs_retrieve w (count is_retrieve t) with
  | Resolve st => (Ret st, t ++ [RunsRetrieve thread run])
  | Reject e => (Throw e, t ++ [RunsRetrieve thread run])
  end.
Proof.
  unfold openai_runs_retrieve, bind, emit.
  destruct (runs_retrieve w (count is_retrieve t)); reflexivity.
Qed.

Lemma server_poll_body_eq (st : jsstring) (a : nat) (t : trace) :
  Server.poll_body w thread run (st, a) t =
  match runs_retrieve w (count is_retrieve t) with
  | Resolve st' =>
      (Ret (st', S a), t ++ [Sleep 1000; RunsRetrieve thread run])
  | Reject e => (Throw e, t ++ [Sleep 1000; RunsRetrieve thread run])
  end.
Proof.
  unfold Server.poll_body, sleep. unfold bind at 1, emit at 1.
  unfold bind at 1. rewrite retrieve_eq.
  rewrite count_app. unfold count at 2. simpl. rewrite Nat.add_0_r.
  rewrite <- app_assoc. simpl.
  destruct (runs_retrieve w (count is_retrieve t)); reflexivity.
Qed.

Lemma index_poll_body_eq (st : jsstring) (t : trace) :
  Index.poll_body w thread run st t =
  match runs_retrieve w (count is_retrieve t) with
  | Resolve st' => (Ret st', t ++ [Sleep 1000; RunsRetrieve thread run])
  | Reject e => (Throw e, t ++ [Sleep 1000; RunsRetrieve thread run])
  end.
Proof.
  unfold Index.poll_body, sleep. unfold bind at 1, emit at 1.
  rewrite retrieve_eq.
  rewrite count_app. unfold count at 2. simpl. rewrite Nat.add_0_r.
  rewrite <- app_assoc. simpl.
  destruct (runs_retrieve w (count is_retrieve t)); reflexivity.
Qed.

(** The loop of [part_000] from [attempts = a]: it ends within
    [maxAttempts - a] rounds, each one sleep and one retrieve, and hands
    back the first status and a counter that falsify its condition. *)
Lemma server_loop (n : nat) :
  forall fuel a st t,
    (Server.maxAttempts - a <= n)%nat -> (n <= fuel)%nat ->
    exists o ext,
      while_ fuel Server.poll_cond (Server.poll_body w thread run) (st, a) t
      = (o, t ++ ext)
      /\ (count is_retrieve ext <= n)%nat
      /\ (count is_sleep ext <= n)%nat
      /\ count is_network ext = count is_retrieve ext
      /\ forallb is_assistant ext = true
      /\ match o with
         | Ret (st', a') =>
             Server.poll_cond (st', a') = false
             /\ (st' = st \/ exists k, runs_retrieve w k = Resolve st')
         | Throw _ => True
         | OutOfFuel => False
         end.
Proof.
  induction n as [|n IH]; intros fuel a st t Ha Hf.
  - assert (C : Server.poll_cond (st, a) = false).
    { unfold Server.poll_cond. simpl.
      destruct (Nat.ltb_spec a Server.maxAttempts); [lia|].
      apply andb_false_r. }
    exists (Ret (st, a)), []. rewrite app_nil_r, while_done by exact C.
    repeat split; auto.
  - destruct (Server.poll_cond (st, a)) eqn:C.
    + destruct fuel as [|fuel]; [lia|].
      rewrite while_step, C, server_poll_body_eq.
      destruct (runs_retrieve w (count is_retrieve t)) as [st'|e] eqn:R.
      * assert (Ha' : (Server.maxAttempts - S a <= n)%nat) by lia.
        destruct (IH fuel (S a) st'
                    (t ++ [Sleep 1000; RunsRetrieve thread run])
                    Ha' ltac:(lia))
          as [o [ext [E [H1 [H2 [H3 [H4 H5]]]]]]].
        exists o, (Sleep 1000 :: RunsRetrieve thread run :: ext).
        rewrite E. repeat split.
        -- now rewrite <- app_assoc.
        -- unfold count in *. simpl. lia.
        -- unfold count in *. simpl. lia.
        -- unfold count in *. simpl. lia.
        -- simpl. exact H4.
        -- destruct o as [[st'' a'']| |]; auto.
           destruct H5 as [Hc Hs]. split; [exact Hc|].
           right. destruct Hs as [->|Hs]; [eauto | exact Hs].
      * exists (Throw e), [Sleep 1000; RunsRetrieve thread run].
        repeat split; unfold count; simpl; lia.
    + exists (Ret (st, a)), []. rewrite app_nil_r, while_done by exact C.
      repeat split; auto; unfold count; simpl; lia.
Qed.

(** The loop of [index.js] on statuses that stay pending: every budget is
    used up, one sleep per unit. *)
Lemma index_loop_stuck :
  (forall k, exists st, runs_retrieve w k = Resolve st /\ pending st = true) ->
  forall fuel st t,
    pending st = true ->
    exists ext,
      while_ fuel pending (Index.poll_body w thread run) st t
      = (OutOfFuel, t ++ ext)
      /\ count is_sleep ext = fuel.
Proof.
  intros Hw. induction fuel as [|fuel IH]; intros st t Hp.
  - exists []. simpl. rewrite Hp, app_nil_r. auto.
  - rewrite while_step, Hp, index_poll_body_eq.
    destruct (Hw (count is_retrieve t)) as [st' [R P]]. rewrite R.
    destruct (IH st' (t ++ [Sleep 1000; RunsRetrieve thread run]) P)
      as [ext [E C]].
    exists (Sleep 1000 :: RunsRetrieve thread run :: ext).
    rewrite E. split.
    + now rewrite <- app_assoc.
    + unfold count in *. simpl. lia.
Qed.

End TraceFacts.

(** ** The assistant client *)

Lemma bind_eq {A B : Type} (m : M A) (f : A -> M B) (t : trace) :
  bind m f t =
  match m t with
  | (Ret a, t') => f a t'
  | (Throw e, t') => (Throw e, t')
  | (OutOfFuel, t') => (OutOfFuel, t')
  end.
Proof. reflexivity. Qed.

Lemma settle_eq {A : Type} (ev : event) (r : reply A) (t : trace) :
  (emit ev ;; settle r) t =
  match r with
  | Resolve a => (Ret a, t ++ [ev])
  | Reject e => (Throw e, t ++ [ev])
  end.
Proof. unfold bind, emit. destruct r; reflexivity. Qed.

Lemma try_catch_eq {A : Type} (m : M A) (h : error -> M A) (t : trace) :
  try_catch m h t =
  match m t with
  | (Throw e, t') => h e t'
  | r => r
  end.
Proof. reflexivity. Qed.

Lemma log_and_throw {A : Type} (args : list logged) (e : error) (t : trace) :
  (console_error args ;; @throw A e) t = (Throw e, t ++ [ConsoleError args]).
Proof. reflexivity. Qed.

Ltac counted :=
  rewrite ?count_app in *; unfold count in *; simpl; lia.

(** Closes a branch of [getGPTResponse] that ends in its [catch]. *)
Ltac caught :=
  cbv beta iota;
  first [ rewrite log_and_throw
        | unfold throw at 1; cbv beta iota; rewrite log_and_throw ];
  eexists _, _;
  (split; [rewrite <- ?app_assoc; reflexivity|]);
  repeat split; try discriminate; try congruence;
  try (intros; congruence); try counted.

Section AssistantFacts.
Variable w : World.

(** One call of [getGPTResponse] in [part_000], from any trace: it ends,
    having polled at most [maxAttempts] times after the first retrieve. *)
Lemma server_getGPTResponse_ends (fuel : nat) (query : value)
    (rankData : list RankRow) (t : trace) :
  (Server.maxAttempts <= fuel)%nat ->
  exists o ext,
    Server.getGPTResponse w fuel query rankData t = (o, t ++ ext)
    /\ o <> OutOfFuel
    /\ (count is_retrieve ext <= S Server.maxAttempts)%nat
    /\ (count is_sleep ext <= Server.maxAttempts)%nat
    /\ (forall e, o = Throw e -> e = Server.assistant_failed)
    /\ ((forall k st, runs_retrieve w k = Resolve st -> pending st = true) ->
        o = Throw Server.assistant_failed).
Proof.
  intros Hf. unfold Server.getGPTResponse. rewrite try_catch_eq.
  unfold openai_threads_create, openai_messages_create, openai_runs_create.
  rewrite bind_eq, settle_eq.
  destruct (threads_create w) as [thread|e]; [|caught].
  rewrite bind_eq, settle_eq.
  destruct (messages_create w thread) as [[]|e]; [|caught].
  rewrite bind_eq, settle_eq.
  destruct (runs_create w thread) as [run|e]; [|caught].
  rewrite bind_eq, retrieve_eq.
  destruct (runs_retrieve w _) as [st0|e] eqn:R0; [|caught].
  rewrite bind_eq.
  destruct (server_loop w thread run Server.maxAttempts fuel O st0
              ((((t ++ [ThreadsCreate])
                 ++ [MessagesCreate thread rankData query])
                ++ [RunsCreate thread ASSISTANT_ID])
               ++ [RunsRetrieve thread run]) ltac:(lia) Hf)
    as [o [ext [E [H1 [H2 [H3 [H4 H5]]]]]]].
  rewrite E.
  destruct o as [[st a]|e|]; [|clear H5; caught|contradiction].
  destruct H5 as [Hc Hs]. cbv beta iota delta [fst].
  destruct (jsstring_eqb st (js "completed")) eqn:Ec.
  - unfold openai_messages_list. rewrite bind_eq, settle_eq.
    destruct (messages_list w thread) as [ms|e]; [|caught].
    unfold lift. destruct (first_text ms) as [txt|e|] eqn:Ft; [|caught|].
    + eexists _, _. split; [rewrite <- ?app_assoc; reflexivity|].
      repeat split; try discriminate; try counted.
      intros HP. exfalso.
      assert (P : pending st = true).
      { destruct Hs as [->|[k Hk]]; eauto. }
      rewrite (pending_not_completed _ P) in Ec. discriminate.
    + exfalso. destruct ms as [|m ms]; [discriminate|].
      simpl in Ft. destruct (content m) as [|[v|] cs]; discriminate.
  - caught.
Qed.

End AssistantFacts.

(** ** A run scripted by its statuses *)

Section ScriptedRun.
Variable w : World.
Variables thread run : jsstring.
(** The statuses the service reports, and the poll at which the loop is
    to stop: every earlier status is pending. *)
Variable sts : nat -> jsstring.
Variable n : nat.
Hypothesis Hres : forall k, (k <= n)%nat -> runs_retrieve w k = Resolve (sts k).
Hypothesis Hpend : forall k, (k < n)%nat -> pending (sts k) = true.

Lemma server_loop_reaches :
  (n <= Server.maxAttempts)%nat ->
  pending (sts n) = false \/ n = Server.maxAttempts ->
  forall d a fuel t,
    (a + d = n)%nat -> (d <= fuel)%nat -> count is_retrieve t = S a ->
    exists ext,
      while_ fuel Server.poll_cond (Server.poll_body w thread run) (sts a, a) t
      = (Ret (sts n, n), t ++ ext)
      /\ count is_sleep ext = d /\ count is_retrieve ext = d.
Proof.
  intros Hn Hstop. induction d as [|d IH]; intros a fuel t Ha Hf Ht.
  - assert (a = n) by lia. subst a.
    exists []. rewrite app_nil_r, while_done; [auto|].
    unfold Server.poll_cond. simpl.
    destruct Hstop as [-> | ->]; [reflexivity|].
    rewrite Nat.ltb_irrefl. apply andb_false_r.
  - destruct fuel as [|fuel]; [lia|].
    rewrite while_step.
    assert (C : Server.poll_cond (sts a, a) = true).
    { unfold Server.poll_cond. simpl. rewrite Hpend by lia.
      apply Nat.ltb_lt. lia. }
    rewrite C, server_poll_body_eq, Ht, Hres by lia.
    destruct (IH (S a) fuel (t ++ [Sleep 1000; RunsRetrieve thread run]))
      as [ext [E [Cs Cr]]]; try lia.
    { rewrite count_app, Ht. unfold count. simpl. lia. }
    exists (Sleep 1000 :: RunsRetrieve thread run :: ext).
    rewrite E, <- app_assoc. repeat split; unfold count in *; simpl; lia.
Qed.

Lemma index_loop_reaches :
  pending (sts n) = false ->
  forall d a fuel t,
    (a + d = n)%nat -> (d <= fuel)%nat -> count is_retrieve t = S a ->
    exists ext,
      while_ fuel pending (Index.poll_body w thread run) (sts a) t
      = (Ret (sts n), t ++ ext)
      /\ count is_sleep ext = d /\ count is_retrieve ext = d.
Proof.
  intros Hstop. induction d as [|d IH]; intros a fuel t Ha Hf Ht.
  - assert (a = n) by lia. subst a.
    exists []. rewrite app_nil_r, while_done; auto.
  - destruct fuel as [|fuel]; [lia|].
    rewrite while_step, Hpend by lia.
    rewrite index_poll_body_eq, Ht, Hres by lia.
    destruct (IH (S a) fuel (t ++ [Sleep 1000; RunsRetrieve thread run]))
      as [ext [E [Cs Cr]]]; try lia.
    { rewrite count_app, Ht. unfold count. simpl. lia. }
    exists (Sleep 1000 :: RunsRetrieve thread run :: ext).
    rewrite E, <- app_assoc. repeat split; unfold count in *; simpl; lia.
Qed.

Hypothesis Hthread : threads_create w = Resolve thread.
Hypothesis Hmessage : messages_create w thread = Resolve tt.
Hypothesis Hrun : runs_create w thread = Resolve run.
Hypothesis Hfinal : jsstring_eqb (sts n) (js "completed") = false.

(** [part_000]: the run stops at poll [n] on a status other than
    [completed], or is still pending when the budget is gone; the status
    goes to the log and the thrown error is the fixed one. *)
Lemma server_run_fails (fuel : nat) (query : value) (rankData : list RankRow)
    (t : trace) :
  (n <= Server.maxAttempts)%nat ->
  pending (sts n) = false \/ n = Server.maxAttempts ->
  (Server.maxAttempts <= fuel)%nat ->
  count is_retrieve t = O ->
  exists ext,
    Server.getGPTResponse w fuel query rankData t
    = (Throw Server.assistant_failed,
       t ++ ext
         ++ [ConsoleError [LStr (js "Error using OpenAI Assistant:");
                           LStr (js "Assistant run ended with status: "
                                 ++ sts n)]])
    /\ count is_sleep ext = n /\ count is_retrieve ext = S n.
Proof.
  intros Hn Hstop Hf Ht. unfold Server.getGPTResponse. rewrite try_catch_eq.
  unfold openai_threads_create, openai_messages_create, openai_runs_create.
  rewrite bind_eq, settle_eq, Hthread.
  rewrite bind_eq, settle_eq, Hmessage.
  rewrite bind_eq, settle_eq, Hrun.
  rewrite bind_eq, retrieve_eq.
  rewrite !count_app, Ht. unfold count at 1 2 3. simpl.
  rewrite Hres by lia. rewrite bind_eq.
  destruct (server_loop_reaches Hn Hstop n O fuel
              ((((t ++ [ThreadsCreate])
                 ++ [MessagesCreate thread rankData query])
                ++ [RunsCreate thread ASSISTANT_ID])
               ++ [RunsRetrieve thread run]))
    as [ext [E [Cs Cr]]]; try lia.
  { rewrite !count_app, Ht. unfold count. simpl. lia. }
  rewrite E. cbv beta iota delta [fst]. rewrite Hfinal.
  unfold throw at 1. cbv beta iota. rewrite log_and_throw.
  exists (ThreadsCreate :: MessagesCreate thread rankData query
          :: RunsCreate thread ASSISTANT_ID :: RunsRetrieve thread run :: ext).
  split.
  - rewrite <- !app_assoc. reflexivity.
  - unfold count in *. simpl. lia.
Qed.

(** [index.js]: the run stops at poll [n] on a status that is neither
    pending nor [completed]; the error that names the status is logged and
    thrown again as it is. *)
Lemma index_run_fails (fuel : nat) (query : value) (rankData : list RankRow)
    (t : trace) :
  pending (sts n) = false ->
  (n <= fuel)%nat ->
  count is_retrieve t = O ->
  exists ext,
    Index.getGPTResponse w fuel query rankData t
    = (Throw (Index.run_ended (sts n)),
       t ++ ext
         ++ [ConsoleError [LStr (js "Error using Assistant:");
                           LErr (Index.run_ended (sts n))]])
    /\ count is_sleep ext = n /\ count is_retrieve ext = S n.
Proof.
  intros Hstop Hf Ht. unfold Index.getGPTResponse. rewrite try_catch_eq.
  unfold openai_threads_create, openai_messages_create, openai_runs_create.
  rewrite bind_eq, settle_eq, Hthread.
  rewrite bind_eq, settle_eq, Hmessage.
  rewrite bind_eq, settle_eq, Hrun.
  rewrite bind_eq, retrieve_eq.
  rewrite !count_app, Ht. unfold count at 1 2 3. simpl.
  rewrite Hres by lia. rewrite bind_eq.
  destruct (index_loop_reaches Hstop n O fuel
              ((((t ++ [ThreadsCreate])
                 ++ [MessagesCreate thread rankData query])
                ++ [RunsCreate thread ASSISTANT_ID])
               ++ [RunsRetrieve thread run]))
    as [ext [E [Cs Cr]]]; try lia.
  { rewrite !count_app, Ht. unfold count. simpl. lia. }
  rewrite E. cbv beta iota. rewrite Hfinal.
  unfold throw at 1. cbv beta iota. rewrite log_and_throw.
  exists (ThreadsCreate :: MessagesCreate thread rankData query
          :: RunsCreate thread ASSISTANT_ID :: RunsRetrieve thread run :: ext).
  split.
  - rewrite <- !app_assoc. reflexivity.
  - unfold count in *. simpl. lia.
Qed.

End ScriptedRun.

(** ** Computations only add to the trace *)

Section Extends.
Context {A B : Type}.

Lemma extends_ret (a : A) : extends (ret a).
Proof. intros t. exists (Ret a), []. now rewrite app_nil_r. Qed.

Lemma extends_throw (e : error) : extends (@throw A e).
Proof. intros t. exists (Throw e), []. now rewrite app_nil_r. Qed.

Lemma extends_lift (o : outcome A) : extends (lift o).
Proof. intros t. exists o, []. now rewrite app_nil_r. Qed.

Lemma extends_settle (r : reply A) : extends (settle r).
Proof. destruct r; [apply extends_ret | apply extends_throw]. Qed.

Lemma extends_bind (m : M A) (f : A -> M B) :
  extends m -> (forall a, extends (f a)) -> extends (bind m f).
Proof.
  intros Hm Hf t. rewrite bind_eq.
  destruct (Hm t) as [o [ext E]]. rewrite E.
  destruct o as [a|e|].
  - destruct (Hf a (t ++ ext)) as [o' [ext' E']]. rewrite E'.
    exists o', (ext ++ ext'). now rewrite app_assoc.
  - now exists (Throw e), ext.
  - now exists OutOfFuel, ext.
Qed.

Lemma extends_try_catch (m : M A) (h : error -> M A) :
  extends m -> (forall e, extends (h e)) -> extends (try_catch m h).
Proof.
  intros Hm Hh t. rewrite try_catch_eq.
  destruct (Hm t) as [o [ext E]]. rewrite E.
  destruct o as [a|e|].
  - now exists (Ret a), ext.
  - destruct (Hh e (t ++ ext)) as [o' [ext' E']]. rewrite E'.
    exists o', (ext ++ ext'). now rewrite app_assoc.
  - now exists OutOfFuel, ext.
Qed.

End Extends.

Lemma extends_while {A : Type} (fuel : nat) (cond : A -> bool)
    (body : A -> M A) :
  (forall s, extends (body s)) -> forall s, extends (while_ fuel cond body s).
Proof.
  intros Hb. induction fuel as [|fuel IH]; intros s.
  - simpl. destruct (cond s).
    + intros t. exists OutOfFuel, []. now rewrite app_nil_r.
    + apply extends_ret.
  - simpl. destruct (cond s); [|apply extends_ret].
    apply extends_bind; auto.
Qed.

Lemma extends_emit (ev : event) : extends (emit ev).
Proof. intros t. now exists (Ret tt), [ev]. Qed.

Lemma extends_retrieve (w : World) (thread run : jsstring) :
  extends (openai_runs_retrieve w thread run).
Proof.
  intros t. rewrite retrieve_eq.
  destruct (runs_retrieve w (count is_retrieve t)); eauto.
Qed.

Create HintDb extends.
#[local] Hint Resolve extends_ret extends_throw extends_lift extends_settle
  extends_emit extends_retrieve : extends.

Lemma index_getGPTResponse_extends (w : World) (fuel : nat) (query : value)
    (rankData : list RankRow) :
  extends (Index.getGPTResponse w fuel query rankData).
Proof.
  unfold Index.getGPTResponse, openai_threads_create, openai_messages_create,
    openai_runs_create, openai_messages_list, Index.poll_body, sleep,
    console_error.
  apply extends_try_catch; intros.
  - repeat (apply extends_bind; intros; auto with extends).
    + apply extends_while. intros.
      repeat (apply extends_bind; intros; auto with extends).
    + destruct (jsstring_eqb _ _); auto with extends.
      repeat (apply extends_bind; intros; auto with extends).
  - repeat (apply extends_bind; intros; auto with extends).
Qed.

(** ** The [/query] and [/health] handlers *)

Section HandlerFacts.
Variable w : World.
Variable fuel : nat.

Lemma usable_string (q : jsstring) :
  trim q <> [] ->
  negb (truthy (VString q)) || negb (is_string (VString q))
  || Server.trims_to_empty (VString q) = false.
Proof.
  intros H. simpl. destruct q as [|c r]; [now elim H|]. simpl.
  unfold jsstring_eqb.
  destruct (list_eq_dec N.eq_dec (trim (c :: r)) []); [contradiction|].
  reflexivity.
Qed.

Lemma unusable_rejected (query : value) :
  unusable query ->
  negb (truthy query) || negb (is_string query)
  || Server.trims_to_empty query = true.
Proof.
  destruct query as [| |b|x|s|items|props]; simpl; intros H;
    rewrite ?orb_true_r; try reflexivity.
  rewrite H. apply orb_true_r.
Qed.

(** [part_000] answers an unusable query with 400 before anything else,
    whatever the body the property was read from. *)
Lemma server_rejects_unusable_query (req : request) (query : value) :
  destructure (js "query") (req_body req) = Ret query ->
  unusable query ->
  Server.post_query w fuel req []
  = (Ret (res_json 400 Server.invalid_request), []).
Proof.
  intros Hb Hq. unfold Server.post_query. rewrite try_catch_eq, bind_eq.
  unfold lift. rewrite Hb. cbv beta iota.
  rewrite (unusable_rejected _ Hq). reflexivity.
Qed.

Lemma server_getRankData_eq (t : trace) :
  Server.getRankData w t =
  match axios_get w (sheet_url w) with
  | Resolve csv =>
      match parse csv with
      | Ret rows => (Ret rows, t ++ [AxiosGet (sheet_url w) (Some 10000%N)])
      | Throw e =>
          (Throw (Error (js "Failed to fetch rank data from Google Sheets")),
           t ++ [AxiosGet (sheet_url w) (Some 10000%N);
                 ConsoleError [LStr (js "Error fetching Google Sheets data:");
                               LStr (message e)]])
      | OutOfFuel => (OutOfFuel, t ++ [AxiosGet (sheet_url w) (Some 10000%N)])
      end
  | Reject e =>
      (Throw (Error (js "Failed to fetch rank data from Google Sheets")),
       t ++ [AxiosGet (sheet_url w) (Some 10000%N);
             ConsoleError [LStr (js "Error fetching Google Sheets data:");
                           LStr (message e)]])
  end.
Proof.
  unfold Server.getRankData, axios_get_data.
  rewrite try_catch_eq, bind_eq, settle_eq.
  destruct (axios_get w (sheet_url w)) as [csv|e].
  - unfold lift. destruct (parse csv) as [rows|e|]; try reflexivity.
    rewrite log_and_throw, <- app_assoc. reflexivity.
  - rewrite log_and_throw, <- app_assoc. reflexivity.
Qed.

Lemma index_getRankData_eq (t : trace) :
  Index.getRankData w t =
  match axios_get w (sheet_url w) with
  | Resolve csv => (parse csv, t ++ [AxiosGet (sheet_url w) None])
  | Reject e => (Throw e, t ++ [AxiosGet (sheet_url w) None])
  end.
Proof.
  unfold Index.getRankData, axios_get_data. rewrite bind_eq, settle_eq.
  destruct (axios_get w (sheet_url w)) as [csv|e]; [|reflexivity].
  unfold lift. destruct (parse csv); reflexivity.
Qed.

(** On a string body [getRankData] of either file returns what the parsing
    stage returns, after its one call of the export. *)
Lemma getRankData_of_string (body : jsstring) (rows : list RankRow) :
  axios_get w (sheet_url w) = Resolve (VString body) ->
  parse (VString body) = Ret rows ->
  Server.getRankData w [] = (Ret rows, [AxiosGet (sheet_url w) (Some 10000%N)])
  /\ Index.getRankData w [] = (Ret rows, [AxiosGet (sheet_url w) None]).
Proof.
  intros Hget Hp.
  rewrite server_getRankData_eq, index_getRankData_eq, Hget, Hp. auto.
Qed.

End HandlerFacts.

(** C7. When the export answers with a string body whose header has no
    rank-like field, [getRankData] of either file still returns its
    records, one per data line, each with the empty string as Rank; the
    same for Company when no header field is company-like. *)
Theorem getRankData_defaults_missing_columns (w : World)
    (body hdr : jsstring) (rest : list jsstring) :
  axios_get w (sheet_url w) = Resolve (VString body) ->
  nonblank_lines body = hdr :: rest ->
  exists rows,
    Server.getRankData w [] = (Ret rows, [AxiosGet (sheet_url w) (Some 10000%N)])
    /\ Index.getRankData w [] = (Ret rows, [AxiosGet (sheet_url w) None])
    /\ List.length rows = List.length rest
    /\ ((forall h, In h (fields hdr) -> rank_like h = false) ->
        Forall (fun r => Rank r = []) rows)
    /\ ((forall h, In h (fields hdr) -> company_like h = false) ->
        Forall (fun r => Company r = []) rows).
Proof.
  intros Hget Hl.
  pose proof (parse_string body) as Hp. rewrite Hl in Hp.
  destruct (getRankData_of_string w body _ Hget Hp) as [HS HI].
  eexists. split; [exact HS|]. split; [exact HI|].
  split; [apply length_map|].
  split; intros H; rewrite (findIndex_none _ _ H);
    apply Forall_forall; intros r Hr; apply in_map_iff in Hr;
    destruct Hr as [line [<- _]]; reflexivity.
Qed.

Lemma getRankData_defaults_missing_columns_witness :
  Server.getRankData nameless_world []
  = (Ret [{| Rank := []; Company := [] |}],
     [AxiosGet (sheet_url nameless_world) (Some 10000%N)]).
Proof.
  destruct (getRankData_defaults_missing_columns nameless_world
              nameless_sheet (js "Position,Firm") [js "1,Acme"])
    as [rows [E [_ [Hlen [HR HC]]]]].
  - reflexivity.
  - vm_compute. reflexivity.
  - rewrite E. do 2 f_equal.
    assert (NR : forall h, In h (fields (js "Position,Firm")) ->
                           rank_like h = false).
    { intros h [<-|[<-|[]]]; vm_compute; reflexivity. }
    assert (NC : forall h, In h (fields (js "Position,Firm")) ->
                           company_like h = false).
    { intros h [<-|[<-|[]]]; vm_compute; reflexivity. }
    specialize (HR NR). specialize (HC NC).
    destruct rows as [|r [|r' rows]]; try discriminate.
    inversion HR as [|? ? ER _]. inversion HC as [|? ? EC _]. subst.
    destruct r as [rk co]. simpl in ER, EC. now subst.
Defined.

(** C8. [GET /health] answers 200 with the JSON body
    [{ status: "healthy", timestamp }], the timestamp being the ISO text of
    the clock at that moment; it leaves the trace as it was, so neither the
    sheet export nor the assistant is called, and a world that agrees on the
    clock gives the same answer whatever its services do. *)
Theorem health_is_static (w : World) (fuel : nat) (req : request) (t : trace) :
  method req = js "GET" ->
  path req = js "/health" ->
  Server.app w fuel req t
  = (Ret {| status := 200;
            headers := Server.cors_headers;
            body := Json (VObject
                      [(js "status", VString (js "healthy"));
                       (js "timestamp", VString (clock w))]) |},
     t)
  /\ forall w' fuel',
       clock w' = clock w ->
       Server.app w' fuel' req t = Server.app w fuel req t.
Proof.
  intros Hm Hp.
  assert (E : forall v k,
             Server.app v k req t
             = (Ret {| status := 200;
                       headers := Server.cors_headers;
                       body := Json (VObject
                                 [(js "status", VString (js "healthy"));
                                  (js "timestamp", VString (clock v))]) |},
                t)).
  { intros v k. unfold Server.app. rewrite Hm, Hp. reflexivity. }
  split; [apply E|].
  intros w' fuel' Hc. now rewrite !E, Hc.
Qed.

Lemma health_is_static_witness :
  Server.app down_world 0
    {| method := js "GET"; path := js "/health"; req_body := VUndefined |} []
  = (Ret {| status := 200;
            headers := Server.cors_headers;
            body := Json (VObject
                      [(js "status", VString (js "healthy"));
                       (js "timestamp", VString (js "2024-05-01T12:00:00.000Z"))]) |},
     []).
Proof.
  apply (health_is_static down_world 0
           {| method := js "GET"; path := js "/health"; req_body := VUndefined |}
           []); reflexivity.
Defined.

(** C6. When the export answers with a body that has no non-blank line, or
    only the header line, [getRankData] returns the empty array, and the
    [/query] handler of [part_000] answers a usable query with 500 and the
    data-unavailable body, having called nothing but the export. *)
Theorem empty_sheet_is_data_unavailable (w : World) (fuel : nat)
    (req : request) (props : list (jsstring * value)) (q csv : jsstring) :
  req_body req = VObject props ->
  lookup (js "query") props = VString q ->
  trim q <> [] ->
  axios_get w (sheet_url w) = Resolve (VString csv) ->
  (List.length (nonblank_lines csv) <= 1)%nat ->
  Server.getRankData w [] = (Ret [], [AxiosGet (sheet_url w) (Some 10000%N)])
  /\ Server.post_query w fuel req []
     = (Ret (res_json 500 Server.data_unavailable),
        [ConsoleLog [LStr (js "Received query:"); LVal (VString q)];
         AxiosGet (sheet_url w) (Some 10000%N)]).
Proof.
  intros Hb Hq Hu Hcsv Hlen.
  assert (P : parse (VString csv) = Ret []).
  { rewrite parse_string.
    destruct (nonblank_lines csv) as [|hdr [|l rest]]; simpl in *;
      [reflexivity | reflexivity | lia]. }
  assert (G : forall t, Server.getRankData w t
                        = (Ret [], t ++ [AxiosGet (sheet_url w) (Some 10000%N)])).
  { intros t. now rewrite server_getRankData_eq, Hcsv, P. }
  split; [apply G|].
  unfold Server.post_query. rewrite try_catch_eq, bind_eq.
  unfold lift, destructure. rewrite Hb. cbv beta iota.
  rewrite Hq, (usable_string _ Hu).
  rewrite bind_eq. unfold console_log, emit at 1. cbv beta iota.
  rewrite bind_eq, G. reflexivity.
Qed.

Lemma empty_sheet_is_data_unavailable_witness :
  Server.getRankData bare_world []
  = (Ret [], [AxiosGet (sheet_url bare_world) (Some 10000%N)])
  /\ Server.post_query bare_world 60 (ask (VString (js "Who is first?"))) []
     = (Ret (res_json 500 Server.data_unavailable),
        [ConsoleLog [LStr (js "Received query:");
                     LVal (VString (js "Who is first?"))];
         AxiosGet (sheet_url bare_world) (Some 10000%N)]).
Proof.
  apply (empty_sheet_is_data_unavailable bare_world 60
           (ask (VString (js "Who is first?")))
           [(js "query", VString (js "Who is first?"))]
           (js "Who is first?") (js "Rank,Company" ++ [CR; LF])).
  - reflexivity.
  - reflexivity.
  - vm_compute. discriminate.
  - reflexivity.
  - vm_compute. lia.
Defined.

(** C4, as the code has it.  When the export call throws on a usable
    query, [getRankData] logs the cause and throws its fixed error, which
    the handler's [catch] turns into a 500 of the processing-failed shape
    [{ success: false, error: "Processing failed", message, timestamp }],
    the message being [Failed to fetch rank data from Google Sheets]; no
    call of the assistant client is in the trace. *)
Theorem fetch_failure_is_processing_failed (w : World) (fuel : nat)
    (req : request) (props : list (jsstring * value)) (q : jsstring)
    (e : error) :
  req_body req = VObject props ->
  lookup (js "query") props = VString q ->
  trim q <> [] ->
  axios_get w (sheet_url w) = Reject e ->
  exists t,
    Server.post_query w fuel req []
    = (Ret (res_json 500
              (Server.processing_failed w
                 (js "Failed to fetch rank data from Google Sheets"))), t)
    /\ t = [ConsoleLog [LStr (js "Received query:"); LVal (VString q)];
            AxiosGet (sheet_url w) (Some 10000%N);
            ConsoleError [LStr (js "Error fetching Google Sheets data:");
                          LStr (message e)];
            ConsoleError
              [LStr (js "Error processing query:");
               LErr (Error (js "Failed to fetch rank data from Google Sheets"))]]
    /\ count is_assistant t = O.
Proof.
  intros Hb Hq Hu Hget. eexists. split; [|split; [reflexivity|reflexivity]].
  unfold Server.post_query. rewrite try_catch_eq, bind_eq.
  unfold lift, destructure. rewrite Hb. cbv beta iota.
  rewrite Hq, (usable_string _ Hu).
  rewrite bind_eq. unfold console_log, emit at 1. cbv beta iota.
  rewrite bind_eq, server_getRankData_eq, Hget. reflexivity.
Qed.

Lemma fetch_failure_is_processing_failed_witness :
  exists t,
    Server.post_query down_world 60 (ask (VString (js "Who is first?"))) []
    = (Ret (res_json 500
              (Server.processing_failed down_world
                 (js "Failed to fetch rank data from Google Sheets"))), t)
    /\ t = [ConsoleLog [LStr (js "Received query:");
                        LVal (VString (js "Who is first?"))];
            AxiosGet (sheet_url down_world) (Some 10000%N);
            ConsoleError [LStr (js "Error fetching Google Sheets data:");
                          LStr (js "timeout of 10000ms exceeded")];
            ConsoleError
              [LStr (js "Error processing query:");
               LErr (Error (js "Failed to fetch rank data from Google Sheets"))]]
    /\ count is_assistant t = O.
Proof.
  apply (fetch_failure_is_processing_failed down_world 60
           (ask (VString (js "Who is first?")))
           [(js "query", VString (js "Who is first?"))]
           (js "Who is first?")
           (Error (js "timeout of 10000ms exceeded"))).
  - reflexivity.
  - reflexivity.
  - vm_compute. discriminate.
  - reflexivity.
Defined.

(** C4 as stated fails: with the export timing out, the 500 answer to a
    usable query has the four properties of the processing-failed body, not
    the two of the data-unavailable one. *)
Lemma fetch_failure_not_data_unavailable :
  ~ (exists r t,
       Server.post_query down_world 60 (ask (VString (js "Who is first?"))) []
       = (Ret r, t)
       /\ status r = 500%N
       /\ (exists v, body r = Json v
                     /\ keys v = keys Server.data_unavailable)
       /\ count is_assistant t = O).
Proof.
  intros [r [t [E [_ [[v [Hv Hk]] _]]]]].
  vm_compute in E. inversion E. subst r. simpl in Hv.
  inversion Hv. subst v. vm_compute in Hk. discriminate.
Qed.

(** What [index.js] does with a query that passes its one test [!query]:
    the export is called first, whatever follows. *)
Lemma index_truthy_query_fetches (w : World) (fuel : nat) (q : value) :
  truthy q = true ->
  exists o ext,
    Index.post_query w fuel (ask q) [] = (o, AxiosGet (sheet_url w) None :: ext)
    /\ forall r, o = Ret r -> status r = 500%N \/ status r = 200%N.
Proof.
  intros Hq. unfold Index.post_query. rewrite try_catch_eq, bind_eq.
  unfold lift, destructure, ask, req_body.
  change (lookup (js "query") [(js "query", q)]) with q.
  cbv beta iota. rewrite Hq. cbv beta iota delta [negb].
  rewrite bind_eq. unfold Index.getRankData, axios_get_data.
  rewrite bind_eq, settle_eq.
  destruct (axios_get w (sheet_url w)) as [csv|e].
  - unfold lift. destruct (parse csv) as [rows|e|].
    + destruct (List.length rows =? 0)%nat.
      * eexists _, _. split; [reflexivity|].
        intros r E. inversion E. now left.
      * rewrite bind_eq.
        destruct (index_getGPTResponse_extends w fuel q rows
                    ([] ++ [AxiosGet (sheet_url w) None]))
          as [o [ext E]].
        rewrite E. destruct o as [answer|e|].
        -- eexists _, _. split; [reflexivity|].
           intros r Er. inversion Er. now right.
        -- eexists _, _. split; [reflexivity|].
           intros r Er. inversion Er. now left.
        -- eexists _, _. split; [reflexivity|]. intros r Er. discriminate.
    + eexists _, _. split; [reflexivity|].
      intros r Er. inversion Er. now left.
    + eexists _, _. split; [reflexivity|]. intros r Er. discriminate.
  - eexists _, _. split; [reflexivity|].
    intros r Er. inversion Er. now left.
Qed.

(** C2 on the two files.  On the bodies [{ "query": 123 }] and
    [{ "query": "   " }] the handler of [part_000] answers 400 with an
    empty trace, while the handler of [index.js], which only tests
    [!query], goes on to call the sheet export and never answers 400. *)
Theorem index_fetches_on_unusable_query (w : World) (fuel : nat) :
  (Server.post_query w fuel (ask (VNumber 123)) []
   = (Ret (res_json 400 Server.invalid_request), [])
   /\ Server.post_query w fuel (ask (VString (js "   "))) []
      = (Ret (res_json 400 Server.invalid_request), []))
  /\ (exists o ext,
        Index.post_query w fuel (ask (VNumber 123)) []
        = (o, AxiosGet (sheet_url w) None :: ext)
        /\ forall r, o = Ret r -> status r <> 400%N)
  /\ (exists o ext,
        Index.post_query w fuel (ask (VString (js "   "))) []
        = (o, AxiosGet (sheet_url w) None :: ext)
        /\ forall r, o = Ret r -> status r <> 400%N).
Proof.
  split; [split; reflexivity|].
  split.
  - destruct (index_truthy_query_fetches w fuel (VNumber 123))
      as [o [ext [E H]]]; [reflexivity|].
    exists o, ext. split; [exact E|].
    intros r Er. destruct (H r Er) as [-> | ->]; discriminate.
  - destruct (index_truthy_query_fetches w fuel (VString (js "   ")))
      as [o [ext [E H]]]; [reflexivity|].
    exists o, ext. split; [exact E|].
    intros r Er. destruct (H r Er) as [-> | ->]; discriminate.
Qed.

Lemma stuck_world_pending :
  forall k, exists st,
    runs_retrieve stuck_world k = Resolve st /\ pending st = true.
Proof. intros k. exists (js "queued"). split; reflexivity. Qed.

(** C3 on the two files.  With a run that stays [queued], [getGPTResponse]
    of [index.js] uses up every iteration budget it is given, one sleep per
    iteration, and returns nothing; [getGPTResponse] of [part_000] throws
    after 60 sleeps and 61 retrieves, whatever budget beyond 60 it has. *)
Theorem index_polls_without_bound (fuel : nat) :
  (exists t,
     Index.getGPTResponse stuck_world fuel (VString (js "Who is first?"))
       one_row [] = (OutOfFuel, t)
     /\ count is_sleep t = fuel)
  /\ (exists t,
        Server.getGPTResponse stuck_world (Server.maxAttempts + fuel)
          (VString (js "Who is first?")) one_row []
        = (Throw Server.assistant_failed, t)
        /\ count is_sleep t = 60%nat /\ count is_retrieve t = 61%nat).
Proof.
  split.
  - unfold Index.getGPTResponse. rewrite try_catch_eq.
    unfold openai_threads_create, openai_messages_create, openai_runs_create.
    rewrite bind_eq, settle_eq. cbn [threads_create stuck_world scripted_world].
    rewrite bind_eq, settle_eq. cbn [messages_create stuck_world scripted_world].
    rewrite bind_eq, settle_eq. cbn [runs_create stuck_world scripted_world].
    rewrite bind_eq, retrieve_eq. cbn [runs_retrieve stuck_world scripted_world].
    rewrite bind_eq.
    destruct (index_loop_stuck stuck_world (js "thread_1") (js "run_1")
                stuck_world_pending fuel (js "queued")
                (((([] ++ [ThreadsCreate])
                   ++ [MessagesCreate (js "thread_1") one_row
                         (VString (js "Who is first?"))])
                  ++ [RunsCreate (js "thread_1") ASSISTANT_ID])
                 ++ [RunsRetrieve (js "thread_1") (js "run_1")]))
      as [ext [E C]]; [reflexivity|].
    rewrite E. eexists. split; [reflexivity|].
    rewrite !count_app, C. unfold count. simpl. lia.
  - destruct (server_run_fails stuck_world (js "thread_1") (js "run_1")
                (fun _ => js "queued") Server.maxAttempts
                (fun k _ => eq_refl) (fun k _ => eq_refl)
                eq_refl eq_refl eq_refl eq_refl
                (Server.maxAttempts + fuel) (VString (js "Who is first?"))
                one_row [])
      as [ext [E [Cs Cr]]]; try lia; auto.
    rewrite E. eexists. split; [reflexivity|].
    rewrite !count_app, Cs, Cr. unfold count. simpl.
    unfold Server.maxAttempts. lia.
Qed.

(** C5, as the code has it.  Let the run stop at poll [n] on a status
    other than [completed], or be still pending when the 60 attempts are
    used up.  [getGPTResponse] of [part_000] then writes
    [Assistant run ended with status: <status>] to [console.error] and
    throws an error whose message is the fixed text
    [Failed to get response from AI assistant]: the status is in the log,
    not in the error.  [getGPTResponse] of [index.js], which has no attempt
    budget, throws on a status that is not pending the error it made, whose
    message is [Run ended with status: <status>]. *)
Theorem assistant_failure_logs_status (w : World) (fuel : nat)
    (query : value) (rankData : list RankRow) (thread run : jsstring)
    (sts : nat -> jsstring) (n : nat) :
  threads_create w = Resolve thread ->
  messages_create w thread = Resolve tt ->
  runs_create w thread = Resolve run ->
  (forall k, (k <= n)%nat -> runs_retrieve w k = Resolve (sts k)) ->
  (forall k, (k < n)%nat -> pending (sts k) = true) ->
  jsstring_eqb (sts n) (js "completed") = false ->
  (n <= Server.maxAttempts)%nat ->
  pending (sts n) = false \/ n = Server.maxAttempts ->
  (Server.maxAttempts <= fuel)%nat ->
  (exists t,
     Server.getGPTResponse w fuel query rankData []
     = (Throw Server.assistant_failed,
        t ++ [ConsoleError
                [LStr (js "Error using OpenAI Assistant:");
                 LStr (js "Assistant run ended with status: " ++ sts n)]]))
  /\ message Server.assistant_failed
     = js "Failed to get response from AI assistant"
  /\ (pending (sts n) = false ->
      exists t,
        Index.getGPTResponse w fuel query rankData []
        = (Throw (Index.run_ended (sts n)),
           t ++ [ConsoleError [LStr (js "Error using Assistant:");
                               LErr (Index.run_ended (sts n))]])
        /\ message (Index.run_ended (sts n))
           = js "Run ended with status: " ++ sts n).
Proof.
  intros Hthread Hmessage Hrun Hres Hpend Hfinal Hn Hstop Hf.
  split; [|split; [reflexivity|]].
  - destruct (server_run_fails w thread run sts n Hres Hpend
                Hthread Hmessage Hrun Hfinal fuel query rankData []
                Hn Hstop Hf eq_refl) as [ext [E _]].
    exists ext. exact E.
  - intros Hp.
    destruct (index_run_fails w thread run sts n Hres Hpend
                Hthread Hmessage Hrun Hfinal fuel query rankData []
                Hp ltac:(lia) eq_refl) as [ext [E _]].
    exists ext. split; [exact E | reflexivity].
Qed.

Lemma assistant_failure_logs_status_witness :
  (exists t,
     Server.getGPTResponse expired_world 60 (VString (js "Who is first?"))
       one_row []
     = (Throw Server.assistant_failed,
        t ++ [ConsoleError
                [LStr (js "Error using OpenAI Assistant:");
                 LStr (js "Assistant run ended with status: " ++ js "expired")]]))
  /\ message Server.assistant_failed
     = js "Failed to get response from AI assistant"
  /\ (pending (js "expired") = false ->
      exists t,
        Index.getGPTResponse expired_world 60 (VString (js "Who is first?"))
          one_row []
        = (Throw (Index.run_ended (js "expired")),
           t ++ [ConsoleError [LStr (js "Error using Assistant:");
                               LErr (Index.run_ended (js "expired"))]])
        /\ message (Index.run_ended (js "expired"))
           = js "Run ended with status: " ++ js "expired").
Proof.
  apply (assistant_failure_logs_status expired_world 60
           (VString (js "Who is first?")) one_row
           (js "thread_1") (js "run_1") expiring 2).
  - reflexivity.
  - reflexivity.
  - reflexivity.
  - intros k Hk. reflexivity.
  - intros k Hk. destruct k as [|[|k]]; [reflexivity | reflexivity | lia].
  - reflexivity.
  - unfold Server.maxAttempts. lia.
  - left. reflexivity.
  - unfold Server.maxAttempts. lia.
Defined.

(** C5 as stated fails on [part_000]: after a run that ends [expired], the
    error [getGPTResponse] throws does not mention [expired]. *)
Lemma assistant_error_hides_status :
  ~ (exists e t,
       Server.getGPTResponse expired_world 60 (VString (js "Who is first?"))
         one_row [] = (Throw e, t)
       /\ mentions (message e) (js "expired") = true).
Proof.
  intros [e [t [E H]]]. vm_compute in E. inversion E. subst e.
  vm_compute in H. discriminate.
Qed.

(** ** End-to-end runs of [part_000] *)

(** A run that goes queued, in_progress, completed: 200 with the text of
    the newest message, after two sleeps. *)
Example query_answered :
  exists t,
    Server.app happy_world 60 (ask (VString (js "Who is first?"))) []
    = (Ret {| status := 200;
              headers := Server.cors_headers;
              body := Json (Server.answered happy_world (js "Acme is first.")) |},
       t)
    /\ count is_sleep t = 2%nat /\ count is_retrieve t = 3%nat.
Proof. eexists. split; [vm_compute; reflexivity|]. split; reflexivity. Qed.

(** A run that never leaves [queued]: 500 processing-failed after 60 sleeps. *)
Example query_times_out :
  exists t,
    Server.app stuck_world 60 (ask (VString (js "Who is first?"))) []
    = (Ret {| status := 500;
              headers := Server.cors_headers;
              body := Json (Server.processing_failed stuck_world
                              (js "Failed to get response from AI assistant")) |},
       t)
    /\ count is_sleep t = 60%nat /\ count is_retrieve t = 61%nat.
Proof. eexists. split; [vm_compute; reflexivity|]. split; reflexivity. Qed.

(** An unmatched route: 404 with the method and the path in the message. *)
Example unknown_route :
  Server.app happy_world 60
    {| method := js "DELETE"; path := js "/foo"; req_body := VUndefined |} []
  = (Ret {| status := 404;
            headers := Server.cors_headers;
            body := Json (VObject
              [(js "error", VString (js "Not Found"));
               (js "message", VString (js "Route DELETE /foo does not exist"));
               (js "availableEndpoints",
                VObject [(js "health", VString (js "GET /"));
                         (js "query", VString (js "POST /query"))])]) |},
     []).
Proof. vm_compute. reflexivity. Qed.

(** * Further properties *)

(** ** Cutting lines and fields *)

Section CuttingFacts.

Lemma push_front_in (c : N) (pieces : list jsstring) (p : jsstring) :
  In p (push_front c pieces) ->
  (exists p', p = c :: p' /\ In p' pieces) \/ In p pieces \/ p = [c].
Proof.
  destruct pieces as [|q qs]; simpl.
  - intros [<-|[]]. auto.
  - intros [<-|H]; [left; eauto | auto].
Qed.

Lemma split_on_nonempty (sep : N) (s : jsstring) : split_on sep s <> [].
Proof.
  induction s as [|c r IH]; simpl; [discriminate|].
  destruct (c =? sep)%N; [discriminate|].
  destruct (split_on sep r); [contradiction | discriminate].
Qed.

Lemma split_lines_nonempty (s : jsstring) : split_lines s <> [].
Proof.
  induction s as [|c r IH]; simpl; [discriminate|].
  destruct (c =? LF)%N; [discriminate|].
  destruct ((c =? CR)%N && starts_with_LF r); [exact IH|].
  destruct (split_lines r); [contradiction | discriminate].
Qed.

(** No piece of [s.split(sep)] holds the separator. *)
Lemma split_on_no_sep (sep : N) (s p : jsstring) :
  In p (split_on sep s) -> ~ In sep p.
Proof.
  revert p. induction s as [|c r IH]; simpl; intros p.
  - intros [<-|[]]. auto.
  - destruct (N.eqb_spec c sep) as [->|Hc].
    + intros [<-|H]; [auto | now apply IH].
    + intros H. destruct (split_on sep r) as [|q qs] eqn:E.
      * now elim (split_on_nonempty sep r).
      * simpl in H. destruct H as [<-|H].
        -- intros [->|Hin]; [now elim Hc|]. apply (IH q); auto. now left.
        -- apply IH. now right.
Qed.

(** No piece of [s.split(/\r?\n/)] holds a line feed. *)
Lemma split_lines_no_LF (s p : jsstring) :
  In p (split_lines s) -> ~ In LF p.
Proof.
  revert p. induction s as [|c r IH]; simpl; intros p.
  - intros [<-|[]]. auto.
  - destruct (N.eqb_spec c LF) as [->|Hc].
    + intros [<-|H]; [auto | now apply IH].
    + destruct ((c =? CR)%N && starts_with_LF r); [apply IH|].
      intros H. destruct (split_lines r) as [|q qs] eqn:E.
      * now elim (split_lines_nonempty r).
      * simpl in H. destruct H as [<-|H].
        -- intros [->|Hin]; [now elim Hc|]. apply (IH q); auto. now left.
        -- apply IH. now right.
Qed.

Lemma clean_keeps_units (c : jsstring) (x : N) : In x (clean c) -> In x c.
Proof.
  intros H. destruct (clean_split c) as [q1 [w1 [w2 [q2 [E _]]]]].
  rewrite E. apply in_or_app. right. apply in_or_app. right.
  apply in_or_app. now left.
Qed.

Lemma clean_no_outer_space (c : jsstring) : no_outer_space (clean c).
Proof.
  destruct (clean_split c) as [q1 [w1 [w2 [q2 [_ [_ [_ [_ [_ [Hh Hl]]]]]]]]]].
  split; assumption.
Qed.

Lemma join_split_on (sep : N) (s : jsstring) : join sep (split_on sep s) = s.
Proof.
  induction s as [|c r IH]; [reflexivity|]. simpl.
  destruct (N.eqb_spec c sep) as [->|Hc].
  - destruct (split_on sep r) as [|q qs] eqn:E.
    + now elim (split_on_nonempty sep r).
    + simpl. simpl in IH. now rewrite IH.
  - destruct (split_on sep r) as [|q qs] eqn:E.
    + now elim (split_on_nonempty sep r).
    + simpl. simpl in IH. destruct qs; simpl in *; now rewrite <- IH.
Qed.

Lemma length_split_on (sep : N) (s : jsstring) :
  List.length (split_on sep s) = S (count_occ N.eq_dec s sep).
Proof.
  induction s as [|c r IH]; [reflexivity|]. simpl.
  destruct (N.eqb_spec c sep) as [->|Hc].
  - simpl. rewrite IH. destruct (N.eq_dec sep sep); [reflexivity|contradiction].
  - destruct (N.eq_dec c sep); [contradiction|].
    rewrite <- IH. destruct (split_on sep r); [|reflexivity].
    now elim (split_on_nonempty sep r).
Qed.

Lemma split_lines_to_crlf (s : jsstring) :
  ~ In CR s -> split_lines (to_crlf s) = split_lines s.
Proof.
  induction s as [|c r IH]; [reflexivity|]. intros H.
  assert (Hc : c <> CR) by (intros ->; apply H; now left).
  assert (Hr : ~ In CR r) by (intros Hin; apply H; now right).
  simpl. destruct (N.eqb_spec c LF) as [->|Hl].
  - simpl. now rewrite IH.
  - simpl. destruct (N.eqb_spec c LF); [contradiction|].
    destruct (N.eqb_spec c CR); [contradiction|]. simpl.
    now rewrite IH.
Qed.

End CuttingFacts.

(** X1. No field of a record that [getRankData] builds from a string body
    holds a comma or a line feed, and none starts or ends with white
    space. *)
Theorem record_fields_are_clean (body : jsstring) (rows : list RankRow)
    (r : RankRow) :
  parse (VString body) = Ret rows ->
  In r rows ->
  (~ In COMMA (Rank r) /\ ~ In LF (Rank r) /\ no_outer_space (Rank r))
  /\ (~ In COMMA (Company r) /\ ~ In LF (Company r)
      /\ no_outer_space (Company r)).
Proof.
  intros Hp Hr. rewrite parse_string in Hp. inversion Hp as [E]. clear Hp.
  assert (K : forall line i,
             In line (nonblank_lines body) ->
             let f := or_else (index (fields line) i) [] in
             ~ In COMMA f /\ ~ In LF f /\ no_outer_space f).
  { intros line i Hline f. unfold f. clear f.
    destruct (field_is_cleaned_piece line i) as [-> | [c [Hc ->]]].
    - repeat split; auto; intros; try (now destruct r0); discriminate.
    - assert (Hl : ~ In LF line).
      { apply split_lines_no_LF with (s := body).
        unfold nonblank_lines in Hline. apply filter_In in Hline. tauto. }
      repeat split.
      + intros Hin. apply clean_keeps_units in Hin.
        now apply (split_on_no_sep COMMA line c).
      + intros Hin. apply clean_keeps_units in Hin. apply Hl.
        rewrite <- (join_split_on COMMA line).
        clear - Hc Hin. induction (split_on COMMA line) as [|q qs IH];
          [contradiction|].
        simpl. destruct qs as [|q' qs'].
        * destruct Hc as [->|[]]. exact Hin.
        * apply in_or_app. destruct Hc as [->|Hc]; [now left|].
          right. right. now apply IH.
      + apply clean_no_outer_space.
      + apply clean_no_outer_space. }
  destruct (nonblank_lines body) as [|hdr rest] eqn:El;
    subst rows; [contradiction|].
  apply in_map_iff in Hr. destruct Hr as [line [<- Hin]].
  unfold row_of. simpl. split; apply K; now right.
Qed.

Lemma record_fields_are_clean_witness :
  (~ In COMMA (js "1") /\ ~ In LF (js "1") /\ no_outer_space (js "1"))
  /\ (~ In COMMA (js "Acme") /\ ~ In LF (js "Acme")
      /\ no_outer_space (js "Acme")).
Proof.
  apply (record_fields_are_clean quoted_sheet
           [{| Rank := js "1"; Company := js "Acme" |}]
           {| Rank := js "1"; Company := js "Acme" |}).
  - vm_compute. reflexivity.
  - now left.
Defined.

(** X2. [line.split(',')] loses nothing and cuts at every comma: the
    pieces joined by commas are the line again, there is one piece more
    than the line has commas, and no piece holds a comma. *)
Theorem comma_split_round_trip (line : jsstring) :
  join COMMA (split_on COMMA line) = line
  /\ List.length (fields line) = S (count_occ N.eq_dec line COMMA)
  /\ forall p, In p (split_on COMMA line) -> ~ In COMMA p.
Proof.
  split; [apply join_split_on|]. split.
  - unfold fields. rewrite length_map. apply length_split_on.
  - intros p. apply split_on_no_sep.
Qed.

(** X3. A body without carriage returns parses to the same records when
    each of its line feeds is written as CR LF. *)
Theorem crlf_parses_alike (body : jsstring) :
  ~ In CR body ->
  parse (VString (to_crlf body)) = parse (VString body).
Proof.
  intros H. rewrite !parse_string. unfold nonblank_lines.
  now rewrite split_lines_to_crlf.
Qed.

Lemma crlf_parses_alike_witness :
  parse (VString (to_crlf (js "Rank,Company" ++ LF :: js "1,Acme")))
  = parse (VString (js "Rank,Company" ++ LF :: js "1,Acme")).
Proof.
  apply (crlf_parses_alike (js "Rank,Company" ++ LF :: js "1,Acme")).
  vm_compute. intros H. repeat (destruct H as [H|H]; [discriminate|]).
  exact H.
Defined.

(** ** The header search *)

Section SearchFacts.

Lemma upcase_lower (p c : N) :
  lower_case p ->
  ((upcase p =? upcase c)%N = true <-> c = p \/ c = (p - 32)%N).
Proof.
  intros [H1 H2]. unfold upcase. rewrite N.eqb_eq.
  destruct (N.leb_spec 97 p), (N.leb_spec p 122); try lia.
  destruct (N.leb_spec 97 c), (N.leb_spec c 122); simpl; lia.
Qed.

Lemma prefix_ci_spec (pat : jsstring) :
  Forall lower_case pat ->
  forall s, prefix_ci pat s = true <->
            exists mid post, s = mid ++ post /\ spells pat mid.
Proof.
  induction 1 as [|p pat Hp Hpat IH]; intros s.
  - simpl. split; [|reflexivity]. intros _. exists [], s. split; constructor.
  - destruct s as [|c s]; simpl.
    + split; [discriminate|]. intros [mid [post [E Hs]]].
      inversion Hs; subst. discriminate.
    + rewrite andb_true_iff, (upcase_lower p c Hp), IH. split.
      * intros [Hc [mid [post [-> Hs]]]]. exists (c :: mid), post.
        split; [reflexivity | now constructor].
      * intros [mid [post [E Hs]]]. inversion Hs as [|? c' ? mid' Hc Hs'].
        subst. simpl in E. inversion E. subst. eauto.
Qed.

Lemma test_ci_spec (pat : jsstring) :
  Forall lower_case pat ->
  forall s, test_ci pat s = true <-> holds_word pat s.
Proof.
  intros Hpat. induction s as [|c s IH].
  - simpl. rewrite orb_false_r, (prefix_ci_spec pat Hpat). split.
    + intros [mid [post [E Hs]]]. now exists [], mid, post.
    + intros [pre [mid [post [E Hs]]]].
      destruct pre; [|discriminate]. exists mid, post. split; [exact E | exact Hs].
  - simpl. rewrite orb_true_iff, (prefix_ci_spec pat Hpat), IH. split.
    + intros [[mid [post [E Hs]]] | [pre [mid [post [E Hs]]]]].
      * now exists [], mid, post.
      * exists (c :: pre), mid, post. split; [now rewrite E | exact Hs].
    + intros [pre [mid [post [E Hs]]]]. destruct pre as [|x pre].
      * left. exists mid, post. split; [exact E | exact Hs].
      * right. simpl in E. inversion E. subst. now exists pre, mid, post.
Qed.

End SearchFacts.

(** X4. A header field counts as the rank column exactly when it holds the
    letters r, a, n, k in a row, each in either case, and as the company
    column exactly when it holds c, o, m, p, a, n, y so; nothing else
    matches, and before and after the word anything may stand. *)
Theorem header_match_is_word_search (h : jsstring) :
  (rank_like h = true <-> holds_word (js "rank") h)
  /\ (company_like h = true <-> holds_word (js "company") h).
Proof.
  split; apply test_ci_spec;
    repeat (constructor; [unfold lower_case; vm_compute; split; discriminate|]);
    constructor.
Qed.

(** ** What one call of the assistant client does *)

Section ClientFacts.
Variable w : World.

Lemma count_none (p q : event -> bool) (ext : trace) :
  forallb q ext = true ->
  (forall ev, q ev = true -> p ev = false) ->
  count p ext = O.
Proof.
  intros Hq Hpq. unfold count. induction ext as [|ev ext IH]; [reflexivity|].
  simpl in *. apply andb_true_iff in Hq. destruct Hq as [H1 H2].
  rewrite (Hpq ev H1). now apply IH.
Qed.

(** Whatever the loop of [part_000] does, it adds sleeps and retrieves
    only. *)
Lemma server_loop_polls (thread run : jsstring) (fuel : nat) :
  forall s t,
    exists o ext,
      while_ fuel Server.poll_cond (Server.poll_body w thread run) s t
      = (o, t ++ ext)
      /\ forallb is_poll ext = true.
Proof.
  induction fuel as [|fuel IH]; intros [st a] t.
  - simpl. destruct (Server.poll_cond (st, a)).
    + exists OutOfFuel, []. now rewrite app_nil_r.
    + exists (Ret (st, a)), []. now rewrite app_nil_r.
  - rewrite while_step. destruct (Server.poll_cond (st, a)).
    + rewrite server_poll_body_eq.
      destruct (runs_retrieve w (count is_retrieve t)) as [st'|e].
      * destruct (IH (st', S a) (t ++ [Sleep 1000; RunsRetrieve thread run]))
          as [o [ext [E F]]].
        exists o, (Sleep 1000 :: RunsRetrieve thread run :: ext).
        rewrite E, <- app_assoc. auto.
      * now exists (Throw e), [Sleep 1000; RunsRetrieve thread run].
    + exists (Ret (st, a)), []. now rewrite app_nil_r.
Qed.

(** One call of [getGPTResponse] of [part_000] with enough budget: what it
    calls, how often, and how it can end. *)
Lemma server_getGPTResponse_cases (fuel : nat) (query : value)
    (rankData : list RankRow) (t : trace) :
  (Server.maxAttempts <= fuel)%nat ->
  exists o ext,
    Server.getGPTResponse w fuel query rankData t = (o, t ++ ext)
    /\ (count is_threads_create ext = 1
        /\ count is_messages_create ext <= 1
        /\ count is_runs_create ext <= 1
        /\ count is_messages_list ext <= 1
        /\ count is_axios ext = 0
        /\ count is_retrieve ext <= S Server.maxAttempts
        /\ count is_sleep ext <= Server.maxAttempts)%nat
    /\ match o with
       | Ret txt =>
           exists thread k ms,
             threads_create w = Resolve thread
             /\ runs_retrieve w k = Resolve (js "completed")
             /\ messages_list w thread = Resolve ms
             /\ first_text ms = Ret txt
       | Throw e => e = Server.assistant_failed
       | OutOfFuel => False
       end.
Proof.
  intros Hf. unfold Server.getGPTResponse. rewrite try_catch_eq.
  unfold openai_threads_create, openai_messages_create, openai_runs_create.
  rewrite bind_eq, settle_eq.
  destruct (threads_create w) as [thread|e] eqn:Rt; [|caught].
  rewrite bind_eq, settle_eq.
  destruct (messages_create w thread) as [[]|e]; [|caught].
  rewrite bind_eq, settle_eq.
  destruct (runs_create w thread) as [run|e]; [|caught].
  rewrite bind_eq, retrieve_eq.
  destruct (runs_retrieve w _) as [st0|e] eqn:R0; [|caught].
  rewrite bind_eq.
  destruct (server_loop w thread run Server.maxAttempts fuel O st0
              ((((t ++ [ThreadsCreate])
                 ++ [MessagesCreate thread rankData query])
                ++ [RunsCreate thread ASSISTANT_ID])
               ++ [RunsRetrieve thread run]) ltac:(lia) Hf)
    as [o [ext [E [H1 [H2 [_ [_ H5]]]]]]].
  destruct (server_loop_polls thread run fuel (st0, O)
              ((((t ++ [ThreadsCreate])
                 ++ [MessagesCreate thread rankData query])
                ++ [RunsCreate thread ASSISTANT_ID])
               ++ [RunsRetrieve thread run]))
    as [o' [ext' [E' P]]].
  rewrite E in E'. inversion E' as [[Eo Eext]].
  apply app_inv_head in Eext. subst o' ext'. clear E'.
  assert (Z1 : count is_threads_create ext = O)
    by (apply (count_none _ _ _ P); now intros []).
  assert (Z2 : count is_messages_create ext = O)
    by (apply (count_none _ _ _ P); now intros []).
  assert (Z3 : count is_runs_create ext = O)
    by (apply (count_none _ _ _ P); now intros []).
  assert (Z4 : count is_messages_list ext = O)
    by (apply (count_none _ _ _ P); now intros []).
  assert (Z5 : count is_axios ext = O)
    by (apply (count_none _ _ _ P); now intros []).
  rewrite E.
  destruct o as [[st a]|e|]; [|clear H5; caught|contradiction].
  destruct H5 as [Hc Hs]. cbv beta iota delta [fst].
  destruct (jsstring_eqb st (js "completed")) eqn:Ec; [|caught].
  unfold openai_messages_list. rewrite bind_eq, settle_eq.
  destruct (messages_list w thread) as [ms|e] eqn:Rm; [|caught].
  unfold lift. destruct (first_text ms) as [txt|e|] eqn:Ft; [|caught|].
  - eexists _, _. split; [rewrite <- ?app_assoc; reflexivity|].
    split; [repeat split; counted|].
    apply jsstring_eqb_eq in Ec. subst st.
    exists thread.
    destruct Hs as [->|[k Hk]]; [eexists _, ms | exists k, ms]; eauto.
  - exfalso. destruct ms as [|m ms]; [discriminate|].
    simpl in Ft. destruct (content m) as [|[v|] cs]; discriminate.
Qed.

End ClientFacts.

(** X5. One call of [getGPTResponse] of [part_000] opens exactly one
    thread, posts at most one message, starts at most one run, lists the
    messages at most once and never calls the sheet export; it either
    returns a text or throws its one fixed error. *)
Theorem one_session_per_call (w : World) (fuel : nat) (query : value)
    (rankData : list RankRow) (t : trace) :
  (Server.maxAttempts <= fuel)%nat ->
  exists o ext,
    Server.getGPTResponse w fuel query rankData t = (o, t ++ ext)
    /\ count is_threads_create ext = 1%nat
    /\ (count is_messages_create ext <= 1)%nat
    /\ (count is_runs_create ext <= 1)%nat
    /\ (count is_messages_list ext <= 1)%nat
    /\ count is_axios ext = 0%nat
    /\ ((exists txt, o = Ret txt) \/ o = Throw Server.assistant_failed).
Proof.
  intros Hf.
  destruct (server_getGPTResponse_cases w fuel query rankData t Hf)
    as [o [ext [E [[C1 [C2 [C3 [C4 [C5 _]]]]] Ho]]]].
  exists o, ext. repeat split; try assumption.
  destruct o as [txt|e|]; [left; eauto | right; now subst | contradiction].
Qed.

Lemma one_session_per_call_witness :
  exists o ext,
    Server.getGPTResponse happy_world 60 (VString (js "Who is first?"))
      one_row [] = (o, [] ++ ext)
    /\ count is_threads_create ext = 1%nat
    /\ (count is_messages_create ext <= 1)%nat
    /\ (count is_runs_create ext <= 1)%nat
    /\ (count is_messages_list ext <= 1)%nat
    /\ count is_axios ext = 0%nat
    /\ ((exists txt, o = Ret txt) \/ o = Throw Server.assistant_failed).
Proof.
  apply (one_session_per_call happy_world 60 (VString (js "Who is first?"))
           one_row []).
  unfold Server.maxAttempts. lia.
Defined.

(** X6. [getGPTResponse] of [part_000] returns a text only when some
    retrieve reported [completed], and the text is then the first content
    block of the first message that [messages.list] gave for the thread it
    opened. *)
Theorem answer_only_when_completed (w : World) (fuel : nat) (query : value)
    (rankData : list RankRow) (t t' : trace) (txt : jsstring) :
  (Server.maxAttempts <= fuel)%nat ->
  Server.getGPTResponse w fuel query rankData t = (Ret txt, t') ->
  exists thread k ms,
    threads_create w = Resolve thread
    /\ runs_retrieve w k = Resolve (js "completed")
    /\ messages_list w thread = Resolve ms
    /\ first_text ms = Ret txt.
Proof.
  intros Hf E.
  destruct (server_getGPTResponse_cases w fuel query rankData t Hf)
    as [o [ext [E' [_ Ho]]]].
  rewrite E in E'. inversion E'. subst o. exact Ho.
Qed.

Lemma answer_only_when_completed_witness :
  exists thread k ms,
    threads_create happy_world = Resolve thread
    /\ runs_retrieve happy_world k = Resolve (js "completed")
    /\ messages_list happy_world thread = Resolve ms
    /\ first_text ms = Ret (js "Acme is first.").
Proof.
  apply (answer_only_when_completed happy_world 60
           (VString (js "Who is first?")) one_row []
           (snd (Server.getGPTResponse happy_world 60
                   (VString (js "Who is first?")) one_row []))
           (js "Acme is first.")).
  - unfold Server.maxAttempts. lia.
  - vm_compute. reflexivity.
Defined.

(** ** The [/query] handler of [part_000], case by case *)

Section ServerHandlerFacts.
Variable w : World.
Variable fuel : nat.

Lemma validation_cases (query : value) :
  (unusable query
   /\ negb (truthy query) || negb (is_string query)
      || Server.trims_to_empty query = true)
  \/ (exists q, query = VString q /\ trim q <> []
                /\ negb (truthy query) || negb (is_string query)
                   || Server.trims_to_empty query = false).
Proof.
  destruct query as [| |b|x|s|items|props];
    try (left; split; [exact I | apply unusable_rejected; exact I]).
  destruct (list_eq_dec N.eq_dec (trim s) []) as [E|E].
  - left. split; [exact E | now apply unusable_rejected].
  - right. exists s. repeat split; [exact E | now apply usable_string].
Qed.

(** The handler after a usable query has passed the validation. *)
Lemma server_post_query_usable (req : request) (q : jsstring) :
  destructure (js "query") (req_body req) = Ret (VString q) ->
  trim q <> [] ->
  Server.post_query w fuel req [] =
  match Server.getRankData w
          [ConsoleLog [LStr (js "Received query:"); LVal (VString q)]] with
  | (Ret rows, t1) =>
      if (List.length rows =? 0)%nat
      then (Ret (res_json 500 Server.data_unavailable), t1)
      else
        match Server.getGPTResponse w fuel (VString q) rows
                (t1 ++ [ConsoleLog
                          [LStr (js "Fetched " ++ decimal (List.length rows)
                                 ++ js " rows from Google Sheets")]]) with
        | (Ret answer, t2) =>
            (Ret (res_json 200 (Server.answered w answer)),
             t2 ++ [ConsoleLog [LStr (js "Generated answer successfully")]])
        | (Throw e, t2) =>
            (Ret (res_json 500 (Server.processing_failed w (shown_message e))),
             t2 ++ [ConsoleError [LStr (js "Error processing query:"); LErr e]])
        | (OutOfFuel, t2) => (OutOfFuel, t2)
        end
  | (Throw e, t1) =>
      (Ret (res_json 500 (Server.processing_failed w (shown_message e))),
       t1 ++ [ConsoleError [LStr (js "Error processing query:"); LErr e]])
  | (OutOfFuel, t1) => (OutOfFuel, t1)
  end.
Proof.
  intros Hb Hu. unfold Server.post_query. rewrite try_catch_eq, bind_eq.
  unfold lift. rewrite Hb. cbv beta iota. rewrite (usable_string _ Hu).
  rewrite bind_eq. unfold console_log, emit at 1. cbv beta iota.
  rewrite bind_eq. change ([] ++ ?x) with x.
  destruct (Server.getRankData w _) as [[rows|e|] t1]; try reflexivity.
  destruct (List.length rows =? 0)%nat; [reflexivity|].
  rewrite bind_eq. unfold emit at 1. cbv beta iota. rewrite bind_eq.
  destruct (Server.getGPTResponse w fuel (VString q) rows _)
    as [[answer|e|] t2]; reflexivity.
Qed.

End ServerHandlerFacts.

Lemma parse_has_no_loop (csv : value) : parse csv <> OutOfFuel.
Proof.
  unfold parse. destruct csv; simpl; try discriminate.
  destruct (filter nonblank (split_lines s)); simpl; discriminate.
Qed.

Section ServerTotal.
Variable w : World.
Variable fuel : nat.
Hypothesis Hfuel : (Server.maxAttempts <= fuel)%nat.

Lemma destructure_cases (p : jsstring) (v : value) :
  (exists x, destructure p v = Ret x)
  \/ (exists e, destructure p v = Throw e /\ (v = VUndefined \/ v = VNull)).
Proof.
  destruct v; simpl; eauto.
Qed.

(** With enough budget the handler of [part_000] always answers. *)
Lemma server_post_query_cases (req : request) :
  exists r tr,
    Server.post_query w fuel req [] = (Ret r, tr)
    /\ headers r = []
    /\ (status r = 200 \/ status r = 400 \/ status r = 500)%N
    /\ (count is_axios tr <= 1
        /\ count is_threads_create tr <= 1
        /\ count is_retrieve tr <= S Server.maxAttempts
        /\ count is_sleep tr <= Server.maxAttempts)%nat.
Proof.
  destruct (destructure_cases (js "query") (req_body req))
    as [[query Hq] | [e [He _]]].
  - destruct (validation_cases query) as [[Hu _] | [q [-> [Hu _]]]].
    + rewrite (server_rejects_unusable_query w fuel req query Hq Hu).
      eexists _, _. split; [reflexivity|].
      repeat split; auto; unfold count; simpl; lia.
    + rewrite (server_post_query_usable w fuel req q Hq Hu).
      rewrite server_getRankData_eq.
      destruct (axios_get w (sheet_url w)) as [csv|e].
      * destruct (parse csv) as [rows|e|] eqn:Hp.
        -- destruct (List.length rows =? 0)%nat.
           ++ eexists _, _. split; [reflexivity|].
              repeat split; auto; unfold count; simpl; lia.
           ++ destruct (server_getGPTResponse_cases w fuel (VString q) rows
                          (([ConsoleLog [LStr (js "Received query:");
                                         LVal (VString q)]]
                            ++ [AxiosGet (sheet_url w) (Some 10000%N)])
                           ++ [ConsoleLog
                                 [LStr (js "Fetched "
                                        ++ decimal (List.length rows)
                                        ++ js " rows from Google Sheets")]])
                          Hfuel)
                as [o [ext [E [[C1 [C2 [C3 [C4 [C5 [C6 C7]]]]]] Ho]]]].
              rewrite E. destruct o as [answer|e|]; [| |contradiction].
              ** eexists _, _. split; [reflexivity|].
                 repeat split; auto; counted.
              ** eexists _, _. split; [reflexivity|].
                 repeat split; auto; counted.
        -- eexists _, _. split; [reflexivity|].
           repeat split; auto; unfold count; simpl; lia.
        -- now elim (parse_has_no_loop csv).
      * eexists _, _. split; [reflexivity|].
        repeat split; auto; unfold count; simpl; lia.
  - unfold Server.post_query. rewrite try_catch_eq, bind_eq.
    unfold lift. rewrite He. cbv beta iota.
    eexists _, _. split; [reflexivity|].
    repeat split; auto; unfold count; simpl; lia.
Qed.

End ServerTotal.

Lemma jsstring_eqb_neq (a b : jsstring) : a <> b -> jsstring_eqb a b = false.
Proof.
  intros H. unfold jsstring_eqb.
  destruct (list_eq_dec N.eq_dec a b); [contradiction | reflexivity].
Qed.

(** X7. With a budget of at least 60 iterations the [/query] handler of
    [part_000] answers every request, whatever the services do: it throws
    nothing, the status is 200, 400 or 500, and on the way it calls the
    sheet export at most once, opens at most one thread and sleeps at most
    60 times. *)
Theorem query_handler_always_answers (w : World) (fuel : nat)
    (req : request) :
  (Server.maxAttempts <= fuel)%nat ->
  exists r tr,
    Server.post_query w fuel req [] = (Ret r, tr)
    /\ (status r = 200 \/ status r = 400 \/ status r = 500)%N
    /\ (count is_axios tr <= 1)%nat
    /\ (count is_threads_create tr <= 1)%nat
    /\ (count is_sleep tr <= 60)%nat.
Proof.
  intros Hf.
  destruct (server_post_query_cases w fuel Hf req)
    as [r [tr [E [_ [Hs [C1 [C2 [_ C4]]]]]]]].
  exists r, tr. repeat split; assumption.
Qed.

Lemma query_handler_always_answers_witness :
  exists r tr,
    Server.post_query stuck_world 60 (ask (VString (js "Who is first?"))) []
    = (Ret r, tr)
    /\ (status r = 200 \/ status r = 400 \/ status r = 500)%N
    /\ (count is_axios tr <= 1)%nat
    /\ (count is_threads_create tr <= 1)%nat
    /\ (count is_sleep tr <= 60)%nat.
Proof.
  apply (query_handler_always_answers stuck_world 60
           (ask (VString (js "Who is first?")))).
  unfold Server.maxAttempts. lia.
Defined.

(** Requests written as the routes are registered reach the same handler
    by Express's matching as by comparison of the strings, so on them, the
    body parser having passed, the chain is [Server.app]. *)
Lemma serve_is_app_as_registered (w : World) (fuel : nat) (req : request)
    (t : trace) :
  (method req = js "GET" /\ path req = js "/")
  \/ (method req = js "GET" /\ path req = js "/health")
  \/ (method req = js "POST" /\ path req = js "/query")
  \/ method req = js "OPTIONS" ->
  Express.serve w fuel Express.Passed req t = Server.app w fuel req t.
Proof.
  destruct req as [m p b]. simpl.
  intros [[-> ->]|[[-> ->]|[[-> ->]| -> ]]];
    unfold Express.serve, Server.app; simpl method; simpl path.
  - reflexivity.
  - reflexivity.
  - reflexivity.
  - reflexivity.
Qed.

(** Express's matching at work: a slash at the end, another case and
    [HEAD] on a [get] route all reach the route; another method does
    not. *)
Example express_matching_probes :
  Express.route (js "GET") (js "/health")
    {| method := js "GET"; path := js "/health/"; req_body := VUndefined |}
  = true
  /\ Express.route (js "GET") (js "/")
       {| method := js "HEAD"; path := js "/"; req_body := VUndefined |}
     = true
  /\ Express.route (js "POST") (js "/query")
       {| method := js "POST"; path := js "/QUERY"; req_body := VUndefined |}
     = true
  /\ Express.route (js "POST") (js "/query")
       {| method := js "GET"; path := js "/query"; req_body := VUndefined |}
     = false
  /\ Express.route (js "GET") (js "/")
       {| method := js "GET"; path := js "/health"; req_body := VUndefined |}
     = false.
Proof. repeat split; vm_compute; reflexivity. Qed.

(** X8. Every response of the [part_000] application carries the three
    CORS headers, also the one by which the body parser refuses a request;
    its status is 200, 400, 404 or 500, or else the status of the parser's
    refusal.  An [OPTIONS] request is answered 200 at once, on any path
    and whatever its body, with nothing logged or called. *)
Theorem every_response_has_cors (w : World) (fuel : nat)
    (parsed : Express.parser_result) (req : request) :
  (Server.maxAttempts <= fuel)%nat ->
  (exists r tr,
     Express.serve w fuel parsed req [] = (Ret r, tr)
     /\ headers r = Server.cors_headers
     /\ ((status r = 200 \/ status r = 400 \/ status r = 404
          \/ status r = 500)%N
         \/ exists page, parsed = Express.Refused (status r) page))
  /\ (method req = js "OPTIONS" ->
      forall t,
        Express.serve w fuel parsed req t
        = (Ret {| status := 200; headers := Server.cors_headers;
                  body := Text (js "OK") |}, t)).
Proof.
  intros Hf.
  assert (W : forall r, headers (Express.on_the_wire req r) = headers r
                        /\ status (Express.on_the_wire req r) = status r).
  { intros r. unfold Express.on_the_wire.
    destruct (jsstring_eqb (method req) (js "HEAD")); auto. }
  split.
  - unfold Express.serve.
    destruct (jsstring_eqb (method req) (js "OPTIONS")).
    { eexists _, _. split; [reflexivity|]. split; [reflexivity|]. auto. }
    destruct parsed as [|code page].
    + rewrite bind_eq.
      destruct (Express.route (js "GET") (js "/") req).
      { eexists _, _. split; [reflexivity|].
        destruct (W (Server.with_headers Server.cors_headers
                       (res_json 200
                          (VObject
                             [(js "status", VString (js "ok"));
                              (js "message",
                               VString (js "Chatbot Backend API is running"));
                              (js "endpoints",
                               VObject
                                 [(js "health",
                                   VString (js "GET / - Check API status"));
                                  (js "query",
                                   VString
                                     (js "POST /query - Send a query with rank data (body: { "
                                      ++ QUOTE :: js "query" ++ QUOTE :: js ": "
                                      ++ QUOTE :: js "your question" ++ QUOTE
                                      :: js " })"))]);
                              (js "version", VString (js "1.0.0"))]))))
          as [-> ->].
        split; [reflexivity|]. left. now left. }
      destruct (Express.route (js "GET") (js "/health") req).
      { eexists _, _. split; [reflexivity|].
        destruct (W (Server.with_headers Server.cors_headers
                       (res_json 200
                          (VObject
                             [(js "status", VString (js "healthy"));
                              (js "timestamp", VString (clock w))]))))
          as [-> ->].
        split; [reflexivity|]. left. now left. }
      destruct (Express.route (js "POST") (js "/query") req).
      * destruct (server_post_query_cases w fuel Hf req)
          as [r [tr [E [Hh [Hs _]]]]].
        rewrite E. eexists _, _. split; [reflexivity|].
        destruct (W (Server.with_headers Server.cors_headers r)) as [-> ->].
        unfold Server.with_headers. rewrite Hh, app_nil_r. simpl.
        split; [reflexivity|]. left. tauto.
      * eexists _, _. split; [reflexivity|].
        match goal with
        | |- context [Express.on_the_wire req ?x] =>
            destruct (W x) as [-> ->]
        end.
        split; [reflexivity|]. left. auto.
    + eexists _, _. split; [reflexivity|].
      match goal with
      | |- context [Express.on_the_wire req ?x] =>
          destruct (W x) as [-> ->]
      end.
      split; [reflexivity|]. right. simpl. now exists page.
  - intros Hm t. unfold Express.serve. rewrite Hm. reflexivity.
Qed.

Lemma every_response_has_cors_witness :
  (exists r tr,
     Express.serve down_world 60 (Express.Refused 413 (js "PayloadTooLargeError"))
       (ask (VString (js "Who is first?"))) [] = (Ret r, tr)
     /\ headers r = Server.cors_headers
     /\ ((status r = 200 \/ status r = 400 \/ status r = 404
          \/ status r = 500)%N
         \/ exists page,
              Express.Refused 413 (js "PayloadTooLargeError")
              = Express.Refused (status r) page))
  /\ Express.serve down_world 60 (Express.Refused 400 (js "SyntaxError"))
       {| method := js "OPTIONS"; path := js "/query";
          req_body := VUndefined |} []
     = (Ret {| status := 200; headers := Server.cors_headers;
               body := Text (js "OK") |}, []).
Proof.
  split.
  - apply (every_response_has_cors down_world 60
             (Express.Refused 413 (js "PayloadTooLargeError"))
             (ask (VString (js "Who is first?")))).
    unfold Server.maxAttempts. lia.
  - destruct (every_response_has_cors down_world 60
                (Express.Refused 400 (js "SyntaxError"))
                {| method := js "OPTIONS"; path := js "/query";
                   req_body := VUndefined |}) as [_ H].
    + unfold Server.maxAttempts. lia.
    + exact (H eq_refl []).
Defined.

(** X9. A request that is not [OPTIONS], whose body the parser passed on
    and which reaches none of the routes [GET /], [GET /health] and
    [POST /query] by Express's matching ([HEAD] on the [get] routes, any
    case, a slash at the end or none) is answered 404 by the catch-all,
    with the message [Route <method> <path> does not exist] built from its
    own method and path, the payload withheld when the method is [HEAD];
    nothing is logged or called. *)
Theorem unmatched_route_echoes (w : World) (fuel : nat) (req : request)
    (t : trace) :
  method req <> js "OPTIONS" ->
  Express.route (js "GET") (js "/") req = false ->
  Express.route (js "GET") (js "/health") req = false ->
  Express.route (js "POST") (js "/query") req = false ->
  Express.serve w fuel Express.Passed req t
  = (Ret (Express.on_the_wire req
            {| status := 404;
               headers := Server.cors_headers;
               body := Json (VObject
                 [(js "error", VString (js "Not Found"));
                  (js "message",
                   VString (js "Route " ++ method req ++ js " " ++ path req
                            ++ js " does not exist"));
                  (js "availableEndpoints",
                   VObject [(js "health", VString (js "GET /"));
                            (js "query", VString (js "POST /query"))])]) |}),
     t).
Proof.
  intros H0 H1 H2 H3. unfold Express.serve.
  rewrite (jsstring_eqb_neq _ _ H0), H1, H2, H3. reflexivity.
Qed.

Lemma unmatched_route_echoes_witness :
  Express.serve down_world 0 Express.Passed
    {| method := js "GET"; path := js "/query"; req_body := VUndefined |} []
  = (Ret {| status := 404;
            headers := Server.cors_headers;
            body := Json (VObject
              [(js "error", VString (js "Not Found"));
               (js "message",
                VString (js "Route GET /query does not exist"));
               (js "availableEndpoints",
                VObject [(js "health", VString (js "GET /"));
                         (js "query", VString (js "POST /query"))])]) |},
     []).
Proof.
  apply (unmatched_route_echoes down_world 0
           {| method := js "GET"; path := js "/query";
              req_body := VUndefined |} []).
  - discriminate.
  - vm_compute. reflexivity.
  - vm_compute. reflexivity.
  - vm_compute. reflexivity.
Defined.

Lemma server_getGPTResponse_extends (w : World) (fuel : nat) (query : value)
    (rankData : list RankRow) :
  extends (Server.getGPTResponse w fuel query rankData).
Proof.
  unfold Server.getGPTResponse, openai_threads_create, openai_messages_create,
    openai_runs_create, openai_messages_list, Server.poll_body, sleep,
    console_error.
  apply extends_try_catch; intros.
  - repeat (apply extends_bind; intros; auto with extends).
    + apply extends_while. intros.
      repeat (apply extends_bind; intros; auto with extends).
    + destruct (jsstring_eqb _ _); auto with extends.
      repeat (apply extends_bind; intros; auto with extends).
  - repeat (apply extends_bind; intros; auto with extends).
Qed.

(** X10. [getRankData] of [part_000] calls the export once, with the 10 s
    timeout.  When the export gives a string it returns the parsed records
    and logs nothing; in every other case, a rejected call or data that is
    not a string, it logs the cause and throws the one fixed error
    [Failed to fetch rank data from Google Sheets]. *)
Theorem getRankData_returns_or_fixed_error (w : World) (t : trace) :
  (exists body rows,
     axios_get w (sheet_url w) = Resolve (VString body)
     /\ parse (VString body) = Ret rows
     /\ Server.getRankData w t
        = (Ret rows, t ++ [AxiosGet (sheet_url w) (Some 10000%N)]))
  \/ ((forall body, axios_get w (sheet_url w) <> Resolve (VString body))
      /\ exists cause,
           Server.getRankData w t
           = (Throw (Error (js "Failed to fetch rank data from Google Sheets")),
              t ++ [AxiosGet (sheet_url w) (Some 10000%N);
                    ConsoleError [LStr (js "Error fetching Google Sheets data:");
                                  LStr cause]])).
Proof.
  rewrite server_getRankData_eq.
  destruct (axios_get w (sheet_url w)) as [csv|e].
  - destruct csv as [| |b|x|s|items|props];
      try (right; split; [discriminate | eexists; reflexivity]).
    left. exists s. rewrite parse_string. eauto.
  - right. split; [discriminate | eexists; reflexivity].
Qed.

(** X11. A usable query, a string with something left after trimming, is
    never answered 400 by the handler of [part_000]: the handler logs it,
    then calls the export with the 10 s timeout before anything else, and
    what it answers has status 200 or 500. *)
Theorem usable_query_reaches_export (w : World) (fuel : nat) (req : request)
    (q : jsstring) :
  destructure (js "query") (req_body req) = Ret (VString q) ->
  trim q <> [] ->
  exists o ext,
    Server.post_query w fuel req []
    = (o, ConsoleLog [LStr (js "Received query:"); LVal (VString q)]
          :: AxiosGet (sheet_url w) (Some 10000%N) :: ext)
    /\ forall r, o = Ret r -> (status r = 200 \/ status r = 500)%N.
Proof.
  intros Hq Hu. rewrite (server_post_query_usable w fuel req q Hq Hu).
  rewrite server_getRankData_eq.
  destruct (axios_get w (sheet_url w)) as [csv|e].
  - destruct (parse csv) as [rows|e|].
    + destruct (List.length rows =? 0)%nat.
      * eexists _, _. split; [reflexivity|].
        intros r E. inversion E. now right.
      * destruct (server_getGPTResponse_extends w fuel (VString q) rows
                    (([ConsoleLog [LStr (js "Received query:");
                                   LVal (VString q)]]
                      ++ [AxiosGet (sheet_url w) (Some 10000%N)])
                     ++ [ConsoleLog
                           [LStr (js "Fetched " ++ decimal (List.length rows)
                                  ++ js " rows from Google Sheets")]]))
          as [o [ext E]].
        rewrite E. destruct o as [answer|e|].
        -- eexists _, _. split; [reflexivity|].
           intros r Er. inversion Er. now left.
        -- eexists _, _. split; [reflexivity|].
           intros r Er. inversion Er. now right.
        -- eexists _, _. split; [reflexivity|]. discriminate.
    + eexists _, _. split; [reflexivity|].
      intros r Er. inversion Er. now right.
    + eexists _, _. split; [reflexivity|]. discriminate.
  - eexists _, _. split; [reflexivity|].
    intros r Er. inversion Er. now right.
Qed.

Lemma usable_query_reaches_export_witness :
  exists o ext,
    Server.post_query stuck_world 3 (ask (VString (js " Who? "))) []
    = (o, ConsoleLog [LStr (js "Received query:"); LVal (VString (js " Who? "))]
          :: AxiosGet (sheet_url stuck_world) (Some 10000%N) :: ext)
    /\ forall r, o = Ret r -> (status r = 200 \/ status r = 500)%N.
Proof.
  apply (usable_query_reaches_export stuck_world 3
           (ask (VString (js " Who? "))) (js " Who? ")).
  - reflexivity.
  - vm_compute. discriminate.
Defined.

(** X12. When [req.body] is [undefined] or [null] the destructuring
    throws inside the [try], so both handlers answer 500, not 400, with
    the message of that error, and call neither the export nor the
    assistant. *)
Theorem missing_body_is_500 (w : World) (fuel : nat) (req : request) :
  req_body req = VUndefined \/ req_body req = VNull ->
  exists e,
    message e <> []
    /\ Server.post_query w fuel req []
       = (Ret (res_json 500 (Server.processing_failed w (message e))),
          [ConsoleError [LStr (js "Error processing query:"); LErr e]])
    /\ Index.post_query w fuel req []
       = (Ret (res_json 500 (VObject [(js "error", VString (message e))])),
          [ConsoleError [LStr (js "Error processing query:"); LErr e]]).
Proof.
  intros H.
  exists (TypeError "Cannot destructure property of undefined or null").
  split; [vm_compute; discriminate|].
  unfold Server.post_query, Index.post_query.
  rewrite !try_catch_eq, !bind_eq. unfold lift, destructure.
  destruct H as [-> | ->]; split; reflexivity.
Qed.

Lemma missing_body_is_500_witness :
  exists e,
    message e <> []
    /\ Server.post_query down_world 0
         {| method := js "POST"; path := js "/query"; req_body := VUndefined |} []
       = (Ret (res_json 500 (Server.processing_failed down_world (message e))),
          [ConsoleError [LStr (js "Error processing query:"); LErr e]])
    /\ Index.post_query down_world 0
         {| method := js "POST"; path := js "/query"; req_body := VUndefined |} []
       = (Ret (res_json 500 (VObject [(js "error", VString (message e))])),
          [ConsoleError [LStr (js "Error processing query:"); LErr e]]).
Proof.
  apply (missing_body_is_500 down_world 0
           {| method := js "POST"; path := js "/query";
              req_body := VUndefined |}).
  now left.
Defined.

(** ** A run that completes *)

Section ScriptedAnswer.
Variable w : World.
Variables thread run : jsstring.
Variable sts : nat -> jsstring.
Variable n : nat.
Variable ms : list thread_message.
Variable txt : jsstring.
Hypothesis Hres : forall k, (k <= n)%nat -> runs_retrieve w k = Resolve (sts k).
Hypothesis Hpend : forall k, (k < n)%nat -> pending (sts k) = true.
Hypothesis Hdone : sts n = js "completed".
Hypothesis Hthread : threads_create w = Resolve thread.
Hypothesis Hmessage : messages_create w thread = Resolve tt.
Hypothesis Hrun : runs_create w thread = Resolve run.
Hypothesis Hlist : messages_list w thread = Resolve ms.
Hypothesis Htext : first_text ms = Ret txt.

Lemma server_run_answers (fuel : nat) (query : value)
    (rankData : list RankRow) (t : trace) :
  (n <= Server.maxAttempts)%nat -> (n <= fuel)%nat ->
  count is_retrieve t = O ->
  exists ext,
    Server.getGPTResponse w fuel query rankData t = (Ret txt, t ++ ext)
    /\ count is_sleep ext = n /\ count is_retrieve ext = S n
    /\ count is_axios ext = O.
Proof.
  intros Hn Hf Ht. unfold Server.getGPTResponse. rewrite try_catch_eq.
  unfold openai_threads_create, openai_messages_create, openai_runs_create.
  rewrite bind_eq, settle_eq, Hthread.
  rewrite bind_eq, settle_eq, Hmessage.
  rewrite bind_eq, settle_eq, Hrun.
  rewrite bind_eq, retrieve_eq.
  rewrite !count_app, Ht. unfold count at 1 2 3. simpl.
  rewrite Hres by lia. rewrite bind_eq.
  assert (Hstop : pending (sts n) = false \/ n = Server.maxAttempts)
    by (left; now rewrite Hdone).
  destruct (server_loop_reaches w thread run sts n Hres Hpend Hn Hstop
              n O fuel
              ((((t ++ [ThreadsCreate])
                 ++ [MessagesCreate thread rankData query])
                ++ [RunsCreate thread ASSISTANT_ID])
               ++ [RunsRetrieve thread run]))
    as [ext [E [Cs Cr]]]; try lia.
  { rewrite !count_app, Ht. unfold count. simpl. lia. }
  destruct (server_loop_polls w thread run fuel (sts 0%nat, O)
              ((((t ++ [ThreadsCreate])
                 ++ [MessagesCreate thread rankData query])
                ++ [RunsCreate thread ASSISTANT_ID])
               ++ [RunsRetrieve thread run]))
    as [o' [ext' [E' P]]].
  rewrite E in E'. inversion E' as [[Eo Eext]].
  apply app_inv_head in Eext. subst ext'. clear E' Eo.
  assert (Z : count is_axios ext = O)
    by (apply (count_none _ _ _ P); now intros []).
  rewrite E. cbv beta iota delta [fst]. rewrite Hdone.
  change (jsstring_eqb (js "completed") (js "completed")) with true.
  cbv beta iota. unfold openai_messages_list.
  rewrite bind_eq, settle_eq, Hlist. unfold lift. rewrite Htext.
  exists (ThreadsCreate :: MessagesCreate thread rankData query
          :: RunsCreate thread ASSISTANT_ID :: RunsRetrieve thread run
          :: ext ++ [MessagesList thread]).
  split.
  - rewrite <- !app_assoc. reflexivity.
  - repeat split; change (?a :: ?b :: ?c :: ?d :: ext ++ ?e)
      with ([a; b; c; d] ++ ext ++ e); counted.
Qed.

Lemma index_run_answers (fuel : nat) (query : value)
    (rankData : list RankRow) (t : trace) :
  (n <= fuel)%nat ->
  count is_retrieve t = O ->
  exists ext,
    Index.getGPTResponse w fuel query rankData t = (Ret txt, t ++ ext)
    /\ count is_sleep ext = n /\ count is_retrieve ext = S n.
Proof.
  intros Hf Ht. unfold Index.getGPTResponse. rewrite try_catch_eq.
  unfold openai_threads_create, openai_messages_create, openai_runs_create.
  rewrite bind_eq, settle_eq, Hthread.
  rewrite bind_eq, settle_eq, Hmessage.
  rewrite bind_eq, settle_eq, Hrun.
  rewrite bind_eq, retrieve_eq.
  rewrite !count_app, Ht. unfold count at 1 2 3. simpl.
  rewrite Hres by lia. rewrite bind_eq.
  assert (Hstop : pending (sts n) = false) by now rewrite Hdone.
  destruct (index_loop_reaches w thread run sts n Hres Hpend Hstop
              n O fuel
              ((((t ++ [ThreadsCreate])
                 ++ [MessagesCreate thread rankData query])
                ++ [RunsCreate thread ASSISTANT_ID])
               ++ [RunsRetrieve thread run]))
    as [ext [E [Cs Cr]]]; try lia.
  { rewrite !count_app, Ht. unfold count. simpl. lia. }
  rewrite E. cbv beta iota. rewrite Hdone.
  change (jsstring_eqb (js "completed") (js "completed")) with true.
  cbv beta iota. unfold openai_messages_list.
  rewrite bind_eq, settle_eq, Hlist. unfold lift. rewrite Htext.
  exists (ThreadsCreate :: MessagesCreate thread rankData query
          :: RunsCreate thread ASSISTANT_ID :: RunsRetrieve thread run
          :: ext ++ [MessagesList thread]).
  split.
  - rewrite <- !app_assoc. reflexivity.
  - split; change (?a :: ?b :: ?c :: ?d :: ext ++ ?e)
      with ([a; b; c; d] ++ ext ++ e); counted.
Qed.

End ScriptedAnswer.

Section IndexHandlerFacts.
Variable w : World.
Variable fuel : nat.

(** The handler of [index.js] after a truthy query has passed its test. *)
Lemma index_post_query_truthy (req : request) (query : value) :
  destructure (js "query") (req_body req) = Ret query ->
  truthy query = true ->
  Index.post_query w fuel req [] =
  match Index.getRankData w [] with
  | (Ret rows, t1) =>
      if (List.length rows =? 0)%nat
      then (Ret (res_json 500
                   (VObject [(js "error",
                              VString (js "Could not fetch rank data from Google Sheets"))])),
            t1)
      else
        match Index.getGPTResponse w fuel query rows t1 with
        | (Ret answer, t2) =>
            (Ret (res_json 200 (VObject [(js "answer", VString answer)])), t2)
        | (Throw e, t2) =>
            (Ret (res_json 500 (VObject [(js "error", Index.error_text e)])),
             t2 ++ [ConsoleError [LStr (js "Error processing query:"); LErr e]])
        | (OutOfFuel, t2) => (OutOfFuel, t2)
        end
  | (Throw e, t1) =>
      (Ret (res_json 500 (VObject [(js "error", Index.error_text e)])),
       t1 ++ [ConsoleError [LStr (js "Error processing query:"); LErr e]])
  | (OutOfFuel, t1) => (OutOfFuel, t1)
  end.
Proof.
  intros Hb Hq. unfold Index.post_query. rewrite try_catch_eq, bind_eq.
  unfold lift. rewrite Hb. cbv beta iota. rewrite Hq.
  cbv beta iota delta [negb]. rewrite bind_eq.
  destruct (Index.getRankData w []) as [[rows|e|] t1]; try reflexivity.
  destruct (List.length rows =? 0)%nat; [reflexivity|].
  rewrite bind_eq.
  destruct (Index.getGPTResponse w fuel query rows t1)
    as [[answer|e|] t2]; reflexivity.
Qed.

End IndexHandlerFacts.

Lemma nonempty_length {A : Type} (l : list A) :
  l <> [] -> (List.length l =? 0)%nat = false.
Proof. destruct l; [contradiction | reflexivity]. Qed.

(** X13. The whole round trip of [part_000]: a usable query, a sheet with
    at least one record, and a run that is pending on its first [n]
    retrieves and [completed] on the next, [n] being at most 60 (the last
    allowed poll included).  The handler answers 200 with
    [{ success: true, answer, timestamp }], the answer being the first
    text block of the newest message, after one export call, [n] sleeps
    and [n + 1] retrieves. *)
Theorem query_answered_when_run_completes (w : World) (fuel : nat)
    (req : request) (q body : jsstring) (rows : list RankRow)
    (thread run : jsstring) (sts : nat -> jsstring) (n : nat)
    (ms : list thread_message) (txt : jsstring) :
  destructure (js "query") (req_body req) = Ret (VString q) ->
  trim q <> [] ->
  axios_get w (sheet_url w) = Resolve (VString body) ->
  parse (VString body) = Ret rows ->
  rows <> [] ->
  threads_create w = Resolve thread ->
  messages_create w thread = Resolve tt ->
  runs_create w thread = Resolve run ->
  (forall k, (k <= n)%nat -> runs_retrieve w k = Resolve (sts k)) ->
  (forall k, (k < n)%nat -> pending (sts k) = true) ->
  sts n = js "completed" ->
  messages_list w thread = Resolve ms ->
  first_text ms = Ret txt ->
  (n <= Server.maxAttempts)%nat ->
  (n <= fuel)%nat ->
  exists t,
    Server.post_query w fuel req []
    = (Ret (res_json 200 (Server.answered w txt)), t)
    /\ count is_axios t = 1%nat
    /\ count is_sleep t = n
    /\ count is_retrieve t = S n.
Proof.
  intros Hq Hu Hget Hp Hrows Hthread Hmessage Hrun Hres Hpend Hdone Hlist
    Htext Hn Hf.
  rewrite (server_post_query_usable w fuel req q Hq Hu).
  rewrite server_getRankData_eq, Hget, Hp, (nonempty_length rows Hrows).
  match goal with
  | |- context [Server.getGPTResponse w fuel ?qq ?rr ?tt] =>
      destruct (server_run_answers w thread run sts n ms txt Hres Hpend Hdone
                  Hthread Hmessage Hrun Hlist Htext fuel qq rr tt Hn Hf
                  eq_refl) as [ext [E [Cs [Cr Ca]]]]
  end.
  rewrite E. eexists. split; [reflexivity|].
  repeat split; counted.
Qed.

Lemma query_answered_when_run_completes_witness :
  exists t,
    Server.post_query happy_world 60 (ask (VString (js "Who is first?"))) []
    = (Ret (res_json 200 (Server.answered happy_world (js "Acme is first."))), t)
    /\ count is_axios t = 1%nat
    /\ count is_sleep t = 2%nat
    /\ count is_retrieve t = 3%nat.
Proof.
  apply (query_answered_when_run_completes happy_world 60
           (ask (VString (js "Who is first?"))) (js "Who is first?")
           (js "Rank,Company" ++ LF :: js "1,Acme") one_row
           (js "thread_1") (js "run_1") completing 2
           [{| content := [TextContent (js "Acme is first.")] |}]
           (js "Acme is first.")).
  - reflexivity.
  - vm_compute. discriminate.
  - reflexivity.
  - vm_compute. reflexivity.
  - discriminate.
  - reflexivity.
  - reflexivity.
  - reflexivity.
  - intros k Hk. reflexivity.
  - intros k Hk. destruct k as [|[|k]]; [reflexivity | reflexivity | lia].
  - reflexivity.
  - reflexivity.
  - reflexivity.
  - unfold Server.maxAttempts. lia.
  - lia.
Defined.

(** X14. The same round trip of [part_000] with a run that stops at
    retrieve [n] on a status other than [completed], or is still pending
    after the 60 sleeps: the handler answers 500 with the processing-failed
    body whose message is [Failed to get response from AI assistant],
    whatever the status was. *)
Theorem query_fails_when_run_fails (w : World) (fuel : nat)
    (req : request) (q body : jsstring) (rows : list RankRow)
    (thread run : jsstring) (sts : nat -> jsstring) (n : nat) :
  destructure (js "query") (req_body req) = Ret (VString q) ->
  trim q <> [] ->
  axios_get w (sheet_url w) = Resolve (VString body) ->
  parse (VString body) = Ret rows ->
  rows <> [] ->
  threads_create w = Resolve thread ->
  messages_create w thread = Resolve tt ->
  runs_create w thread = Resolve run ->
  (forall k, (k <= n)%nat -> runs_retrieve w k = Resolve (sts k)) ->
  (forall k, (k < n)%nat -> pending (sts k) = true) ->
  jsstring_eqb (sts n) (js "completed") = false ->
  (n <= Server.maxAttempts)%nat ->
  pending (sts n) = false \/ n = Server.maxAttempts ->
  (Server.maxAttempts <= fuel)%nat ->
  exists t,
    Server.post_query w fuel req []
    = (Ret (res_json 500
              (Server.processing_failed w
                 (js "Failed to get response from AI assistant"))), t)
    /\ count is_sleep t = n
    /\ count is_retrieve t = S n.
Proof.
  intros Hq Hu Hget Hp Hrows Hthread Hmessage Hrun Hres Hpend Hfinal Hn
    Hstop Hf.
  rewrite (server_post_query_usable w fuel req q Hq Hu).
  rewrite server_getRankData_eq, Hget, Hp, (nonempty_length rows Hrows).
  match goal with
  | |- context [Server.getGPTResponse w fuel ?qq ?rr ?tt] =>
      destruct (server_run_fails w thread run sts n Hres Hpend
                  Hthread Hmessage Hrun Hfinal fuel qq rr tt Hn Hstop Hf
                  eq_refl) as [ext [E [Cs Cr]]]
  end.
  rewrite E. eexists. split; [reflexivity|].
  repeat split; counted.
Qed.

Lemma query_fails_when_run_fails_witness :
  exists t,
    Server.post_query expired_world 60 (ask (VString (js "Who is first?"))) []
    = (Ret (res_json 500
              (Server.processing_failed expired_world
                 (js "Failed to get response from AI assistant"))), t)
    /\ count is_sleep t = 2%nat
    /\ count is_retrieve t = 3%nat.
Proof.
  apply (query_fails_when_run_fails expired_world 60
           (ask (VString (js "Who is first?"))) (js "Who is first?")
           (js "Rank,Company" ++ LF :: js "1,Acme") one_row
           (js "thread_1") (js "run_1") expiring 2).
  - reflexivity.
  - vm_compute. discriminate.
  - reflexivity.
  - vm_compute. reflexivity.
  - discriminate.
  - reflexivity.
  - reflexivity.
  - reflexivity.
  - intros k Hk. reflexivity.
  - intros k Hk. destruct k as [|[|k]]; [reflexivity | reflexivity | lia].
  - reflexivity.
  - unfold Server.maxAttempts. lia.
  - left. reflexivity.
  - unfold Server.maxAttempts. lia.
Defined.

(** ** The handler of [index.js] *)

Lemma index_post_query_truthy_cases (w : World) (fuel : nat)
    (req : request) (query : value) :
  destructure (js "query") (req_body req) = Ret query ->
  truthy query = true ->
  exists o ext,
    Index.post_query w fuel req [] = (o, AxiosGet (sheet_url w) None :: ext)
    /\ forall r, o = Ret r -> (status r = 200 \/ status r = 500)%N.
Proof.
  intros Hb Hq.
  rewrite (index_post_query_truthy w fuel req query Hb Hq).
  rewrite index_getRankData_eq.
  destruct (axios_get w (sheet_url w)) as [csv|e].
  - destruct (parse csv) as [rows|e|].
    + destruct (List.length rows =? 0)%nat.
      * eexists _, _. split; [reflexivity|].
        intros r E. inversion E. now right.
      * destruct (index_getGPTResponse_extends w fuel query rows
                    ([] ++ [AxiosGet (sheet_url w) None]))
          as [o [ext E]].
        rewrite E. destruct o as [answer|e|].
        -- eexists _, _. split; [reflexivity|].
           intros r Er. inversion Er. now left.
        -- eexists _, _. split; [reflexivity|].
           intros r Er. inversion Er. now right.
        -- eexists _, _. split; [reflexivity|]. discriminate.
    + eexists _, _. split; [reflexivity|].
      intros r Er. inversion Er. now right.
    + eexists _, _. split; [reflexivity|]. discriminate.
  - eexists _, _. split; [reflexivity|].
    intros r Er. inversion Er. now right.
Qed.

(** X15. The one test of the [index.js] handler is the truthiness of the
    query.  It answers 400 [Query is required], with nothing called,
    exactly when the query is falsy (missing, [null], [false], [0], [NaN]
    or the empty string), and it calls the export, as its first outside
    call and without a timeout, exactly when the query is truthy, string
    or not.  A truthy query is never answered 400: whenever the handler
    gives an answer to it, the status is 200 or 500.  (It need not give
    one: the polling loop of this file has no bound.) *)
Theorem index_validation_is_truthiness (w : World) (fuel : nat)
    (req : request) (query : value) :
  destructure (js "query") (req_body req) = Ret query ->
  (truthy query = false <->
   Index.post_query w fuel req []
   = (Ret (res_json 400
             (VObject [(js "error", VString (js "Query is required"))])),
      []))
  /\ (truthy query = true <->
      exists o ext,
        Index.post_query w fuel req []
        = (o, AxiosGet (sheet_url w) None :: ext))
  /\ (truthy query = true ->
      forall r t,
        Index.post_query w fuel req [] = (Ret r, t) ->
        (status r = 200 \/ status r = 500)%N).
Proof.
  intros Hb. destruct (truthy query) eqn:Hq.
  - destruct (index_post_query_truthy_cases w fuel req query Hb Hq)
      as [o [ext [E Hs]]].
    split; [|split].
    + split; [discriminate|]. intros E'. rewrite E in E'. discriminate.
    + split; [eauto | reflexivity].
    + intros _ r t E'. rewrite E in E'. inversion E'. subst. now apply Hs.
  - assert (E : Index.post_query w fuel req []
                = (Ret (res_json 400
                          (VObject [(js "error",
                                     VString (js "Query is required"))])),
                   [])).
    { unfold Index.post_query. rewrite try_catch_eq, bind_eq.
      unfold lift. rewrite Hb. cbv beta iota. rewrite Hq. reflexivity. }
    split; [|split].
    + split; [intros _; exact E | reflexivity].
    + split; [discriminate|]. intros [o [ext E']]. rewrite E in E'.
      discriminate.
    + discriminate.
Qed.

Lemma index_validation_is_truthiness_witness :
  Index.post_query down_world 0 (ask (VNumber 0)) []
  = (Ret (res_json 400
            (VObject [(js "error", VString (js "Query is required"))])),
     [])
  /\ (exists o ext,
        Index.post_query happy_world 5 (ask (VNumber 123)) []
        = (o, AxiosGet (sheet_url happy_world) None :: ext))
  /\ (forall r t,
        Index.post_query happy_world 5 (ask (VNumber 123)) [] = (Ret r, t) ->
        (status r = 200 \/ status r = 500)%N).
Proof.
  destruct (index_validation_is_truthiness down_world 0 (ask (VNumber 0))
              (VNumber 0) eq_refl) as [[H0 _] _].
  destruct (index_validation_is_truthiness happy_world 5 (ask (VNumber 123))
              (VNumber 123) eq_refl) as [_ [[H1 _] H2]].
  split; [apply H0; reflexivity|].
  split; [apply H1; reflexivity | apply H2; reflexivity].
Defined.

(** X16. When the export call throws, the handler of [index.js] sends the
    thrown error's own text to the client: status 500 with
    [{ error: text }], the text being
    [err.response?.data?.error?.message || err.message || "Server error"]
    of the very error the export call threw; the error is logged, and the
    assistant is not called. *)
Theorem index_sends_fetch_error_to_client (w : World) (fuel : nat)
    (req : request) (query : value) (e : error) :
  destructure (js "query") (req_body req) = Ret query ->
  truthy query = true ->
  axios_get w (sheet_url w) = Reject e ->
  Index.post_query w fuel req []
  = (Ret (res_json 500 (VObject [(js "error", Index.error_text e)])),
     [AxiosGet (sheet_url w) None;
      ConsoleError [LStr (js "Error processing query:"); LErr e]]).
Proof.
  intros Hb Hq Hget.
  rewrite (index_post_query_truthy w fuel req query Hb Hq).
  rewrite index_getRankData_eq, Hget. reflexivity.
Qed.

Lemma index_sends_fetch_error_to_client_witness :
  Index.post_query down_world 0 (ask (VString (js "Who is first?"))) []
  = (Ret (res_json 500
            (VObject [(js "error", VString (js "timeout of 10000ms exceeded"))])),
     [AxiosGet (sheet_url down_world) None;
      ConsoleError [LStr (js "Error processing query:");
                    LErr (Error (js "timeout of 10000ms exceeded"))]]).
Proof.
  apply (index_sends_fetch_error_to_client down_world 0
           (ask (VString (js "Who is first?")))
           (VString (js "Who is first?"))
           (Error (js "timeout of 10000ms exceeded")));
    reflexivity.
Defined.

(** X17. In [index.js] the status of a failed run reaches the client: with
    a truthy query, a sheet with at least one record and a run that stops
    at retrieve [n] on a status that is neither pending nor [completed],
    the handler answers 500 with
    [{ error: "Run ended with status: <status>" }], after [n] sleeps,
    however large [n] is. *)
Theorem index_sends_run_status_to_client (w : World) (fuel : nat)
    (req : request) (query : value) (body : jsstring) (rows : list RankRow)
    (thread run : jsstring) (sts : nat -> jsstring) (n : nat) :
  destructure (js "query") (req_body req) = Ret query ->
  truthy query = true ->
  axios_get w (sheet_url w) = Resolve (VString body) ->
  parse (VString body) = Ret rows ->
  rows <> [] ->
  threads_create w = Resolve thread ->
  messages_create w thread = Resolve tt ->
  runs_create w thread = Resolve run ->
  (forall k, (k <= n)%nat -> runs_retrieve w k = Resolve (sts k)) ->
  (forall k, (k < n)%nat -> pending (sts k) = true) ->
  pending (sts n) = false ->
  jsstring_eqb (sts n) (js "completed") = false ->
  (n <= fuel)%nat ->
  exists t,
    Index.post_query w fuel req []
    = (Ret (res_json 500
              (VObject [(js "error",
                         VString (js "Run ended with status: " ++ sts n))])), t)
    /\ count is_sleep t = n
    /\ count is_retrieve t = S n.
Proof.
  intros Hb Hq Hget Hp Hrows Hthread Hmessage Hrun Hres Hpend Hstop Hfinal Hf.
  rewrite (index_post_query_truthy w fuel req query Hb Hq).
  rewrite index_getRankData_eq, Hget, Hp, (nonempty_length rows Hrows).
  match goal with
  | |- context [Index.getGPTResponse w fuel ?qq ?rr ?tt] =>
      destruct (index_run_fails w thread run sts n Hres Hpend
                  Hthread Hmessage Hrun Hfinal fuel qq rr tt Hstop Hf
                  eq_refl) as [ext [E [Cs Cr]]]
  end.
  rewrite E. eexists. split; [reflexivity|].
  repeat split; counted.
Qed.

Lemma index_sends_run_status_to_client_witness :
  exists t,
    Index.post_query expired_world 2 (ask (VString (js "Who is first?"))) []
    = (Ret (res_json 500
              (VObject [(js "error",
                         VString (js "Run ended with status: " ++ js "expired"))])),
       t)
    /\ count is_sleep t = 2%nat
    /\ count is_retrieve t = 3%nat.
Proof.
  apply (index_sends_run_status_to_client expired_world 2
           (ask (VString (js "Who is first?")))
           (VString (js "Who is first?"))
           (js "Rank,Company" ++ LF :: js "1,Acme") one_row
           (js "thread_1") (js "run_1") expiring 2).
  - reflexivity.
  - reflexivity.
  - reflexivity.
  - vm_compute. reflexivity.
  - discriminate.
  - reflexivity.
  - reflexivity.
  - reflexivity.
  - intros k Hk. reflexivity.
  - intros k Hk. destruct k as [|[|k]]; [reflexivity | reflexivity | lia].
  - reflexivity.
  - reflexivity.
  - lia.
Defined.

(** X18. The round trip of [index.js]: with a truthy query, a sheet with
    at least one record and a run that is pending on its first [n]
    retrieves and [completed] on the next, the handler answers 200 with
    [{ answer }], the first text block of the newest message, after [n]
    sleeps; [n] has no ceiling. *)
Theorem index_answers_when_run_completes (w : World) (fuel : nat)
    (req : request) (query : value) (body : jsstring) (rows : list RankRow)
    (thread run : jsstring) (sts : nat -> jsstring) (n : nat)
    (ms : list thread_message) (txt : jsstring) :
  destructure (js "query") (req_body req) = Ret query ->
  truthy query = true ->
  axios_get w (sheet_url w) = Resolve (VString body) ->
  parse (VString body) = Ret rows ->
  rows <> [] ->
  threads_create w = Resolve thread ->
  messages_create w thread = Resolve tt ->
  runs_create w thread = Resolve run ->
  (forall k, (k <= n)%nat -> runs_retrieve w k = Resolve (sts k)) ->
  (forall k, (k < n)%nat -> pending (sts k) = true) ->
  sts n = js "completed" ->
  messages_list w thread = Resolve ms ->
  first_text ms = Ret txt ->
  (n <= fuel)%nat ->
  exists t,
    Index.post_query w fuel req []
    = (Ret (res_json 200 (VObject [(js "answer", VString txt)])), t)
    /\ count is_sleep t = n
    /\ count is_retrieve t = S n.
Proof.
  intros Hb Hq Hget Hp Hrows Hthread Hmessage Hrun Hres Hpend Hdone Hlist
    Htext Hf.
  rewrite (index_post_query_truthy w fuel req query Hb Hq).
  rewrite index_getRankData_eq, Hget, Hp, (nonempty_length rows Hrows).
  match goal with
  | |- context [Index.getGPTResponse w fuel ?qq ?rr ?tt] =>
      destruct (index_run_answers w thread run sts n ms txt Hres Hpend Hdone
                  Hthread Hmessage Hrun Hlist Htext fuel qq rr tt Hf
                  eq_refl) as [ext [E [Cs Cr]]]
  end.
  rewrite E. eexists. split; [reflexivity|].
  repeat split; counted.
Qed.

Lemma index_answers_when_run_completes_witness :
  exists t,
    Index.post_query happy_world 2 (ask (VNumber 123)) []
    = (Ret (res_json 200 (VObject [(js "answer", VString (js "Acme is first."))])),
       t)
    /\ count is_sleep t = 2%nat
    /\ count is_retrieve t = 3%nat.
Proof.
  apply (index_answers_when_run_completes happy_world 2
           (ask (VNumber 123)) (VNumber 123)
           (js "Rank,Company" ++ LF :: js "1,Acme") one_row
           (js "thread_1") (js "run_1") completing 2
           [{| content := [TextContent (js "Acme is first.")] |}]
           (js "Acme is first.")).
  - reflexivity.
  - reflexivity.
  - reflexivity.
  - vm_compute. reflexivity.
  - discriminate.
  - reflexivity.
  - reflexivity.
  - reflexivity.
  - intros k Hk. reflexivity.
  - intros k Hk. destruct k as [|[|k]]; [reflexivity | reflexivity | lia].
  - reflexivity.
  - reflexivity.
  - reflexivity.
  - lia.
Defined.

(** X19. The handler of [part_000] calls the assistant only after the
    export gave a string body that parsed to at least one record: in every
    other run of the handler the trace holds no assistant call and no
    sleep. *)
Theorem assistant_only_after_records (w : World) (fuel : nat)
    (req : request) :
  exists o tr,
    Server.post_query w fuel req [] = (o, tr)
    /\ (count is_assistant tr = 0%nat
        \/ exists body rows,
             axios_get w (sheet_url w) = Resolve (VString body)
             /\ parse (VString body) = Ret rows
             /\ rows <> []).
Proof.
  destruct (destructure_cases (js "query") (req_body req))
    as [[query Hq] | [e [He _]]].
  - destruct (validation_cases query) as [[Hu _] | [q [-> [Hu _]]]].
    + rewrite (server_rejects_unusable_query w fuel req query Hq Hu).
      eexists _, _. split; [reflexivity|]. now left.
    + rewrite (server_post_query_usable w fuel req q Hq Hu).
      rewrite server_getRankData_eq.
      destruct (axios_get w (sheet_url w)) as [csv|e] eqn:Hget.
      * destruct csv as [| |b|x|s|items|props];
          try (eexists _, _; split; [reflexivity | now left]).
        destruct (parse (VString s)) as [rows|e|] eqn:Hp;
          [|rewrite parse_string in Hp; discriminate
           |rewrite parse_string in Hp; discriminate].
        destruct rows as [|r rows].
        -- eexists _, _. split; [reflexivity | now left].
        -- match goal with
           | |- context [Server.getGPTResponse w fuel ?qq ?rr ?tt] =>
               destruct (Server.getGPTResponse w fuel qq rr tt)
                 as [[answer|e|] t2]
           end; (eexists _, _; split; [reflexivity|]; right;
                 exists s, (r :: rows);
                 split; [reflexivity|]; split; [exact Hp | discriminate]).
      * eexists _, _. split; [reflexivity | now left].
  - unfold Server.post_query. rewrite try_catch_eq, bind_eq.
    unfold lift. rewrite He. cbv beta iota.
    eexists _, _. split; [reflexivity | now left].
Qed.
